(** * distance-server: the distance engine, the export adapter and the
      calculate-distance route, embedded from the Python sources.

    - [services/distance_calculator.py]  ->  [Numpy], [DistanceCalculator]
    - [services/results_exporter.py]     ->  [Py], [Json], [Csv], [ResultsExporter]
    - [app.py]                           ->  [App]

    Numbers are IEEE-754 binary64 values (Python [float], numpy [float64]),
    embedded as Rocq's primitive floats. Equality of floats in a statement is
    identity of the value (there is one NaN, and the two zeros differ); the
    comparisons of the code ([==], [<=]) are [PrimFloat.eqb] and
    [PrimFloat.leb]. Universal facts about the float operations are derived
    from their specification in the standard library ([FloatAxioms]). *)

From Stdlib Require Import Floats ZArith List String Ascii Bool Arith Lia DecimalString.
From Stdlib Require Uint63.
Import ListNotations.

#[local] Set Warnings "-register-all".

Local Open Scope string_scope.
Local Open Scope list_scope.

(** ** Exceptions, the clock and the id generator *)

(** The Python exceptions the modelled functions can raise. Every domain error
    of the services is a [ValueError] told apart by its message. *)
Inductive exn : Type :=
| ValueError (msg : string)
| IndexError
| KeyError
| TypeError
| AttributeError
| UnboundLocalError.

(** [datetime.now().isoformat()] and [str(uuid.uuid4())] read the outside
    world: the world holds what the n-th read returns and how many reads
    happened so far. *)
Record World : Type := mkWorld {
  clock : nat -> string;
  uuid4 : nat -> string;
  clock_reads : nat;
  uuid_draws : nat
}.

Inductive outcome (A : Type) : Type :=
| Ok (a : A)
| Raise (e : exn).
Arguments Ok {A} a.
Arguments Raise {A} e.

(** Computations that may raise and that read the world. *)
Definition M (A : Type) : Type := World -> outcome A * World.

Definition ret {A} (a : A) : M A := fun w => (Ok a, w).
Definition raise {A} (e : exn) : M A := fun w => (Raise e, w).
Definition bind {A B} (m : M A) (k : A -> M B) : M B :=
  fun w => match m w with
           | (Ok a, w') => k a w'
           | (Raise e, w') => (Raise e, w')
           end.

Declare Scope py_scope.
Delimit Scope py_scope with py.
Notation "x <- m ;; k" := (bind m (fun x => k))
  (at level 100, m at next level, right associativity) : py_scope.
Local Open Scope py_scope.

(** [for x in xs: s = body x s], stopping at the first exception. *)
Fixpoint for_each {A S : Type} (xs : list A) (body : A -> S -> M S) (s : S) : M S :=
  match xs with
  | [] => ret s
  | x :: xs' => s' <- body x s ;; for_each xs' body s'
  end.

(** [xs[i]] on a Python list. *)
Definition getitem {A} (xs : list A) (i : nat) : M A :=
  match nth_error xs i with
  | Some x => ret x
  | None => raise IndexError
  end.

(** ** The numpy operations the calculator calls *)

Module Numpy.

Local Open Scope float_scope.

(** A one-dimensional [float64] array. *)
Definition ndarray : Type := list float.

(** [np.array(point)] on a list of floats. *)
Definition array (point : list float) : ndarray := point.

(** Element-wise binary operation on arrays of one length (the calculator
    checks the lengths before it builds the arrays). *)
Fixpoint zip_with {A B C} (f : A -> B -> C) (a : list A) (b : list B) : list C :=
  match a, b with
  | x :: a', y :: b' => f x y :: zip_with f a' b'
  | _, _ => []
  end.

Definition subtract (a b : ndarray) : ndarray := zip_with PrimFloat.sub a b.
Definition absolute (a : ndarray) : ndarray := map PrimFloat.abs a.

(** [np.minimum] and [np.maximum]: the first operand when the comparison
    holds or when it is NaN, else the second. *)
Definition fmin (x y : float) : float := if (x <=? y) || is_nan x then x else y.
Definition fmax (x y : float) : float := if (y <=? x) || is_nan x then x else y.
Definition minimum (a b : ndarray) : ndarray := zip_with fmin a b.
Definition maximum (a b : ndarray) : ndarray := zip_with fmax a b.

(** [a != b], element-wise. *)
Definition not_equal (a b : ndarray) : list bool :=
  zip_with (fun x y => negb (x =? y)) a b.

(** [np.sum] of a float array: the elements accumulated from [0.0], left to
    right. numpy is free to add in another order (in blocks, or inside BLAS
    for [np.dot]), which can round differently on long arrays; every sum
    evaluated in the examples below is exact, and the general statements
    compare two sums taken over the same positions. *)
Definition sum (a : ndarray) : float := fold_left PrimFloat.add a 0.

(** [np.sum] of a boolean array: the number of [True] entries, an integer. *)
Definition count_true (a : list bool) : Z := Z.of_nat (List.length (filter id a)).

(** [np.dot] of two vectors. *)
Definition dot (a b : ndarray) : float := sum (zip_with PrimFloat.mul a b).

(** [np.linalg.norm] of a vector: the square root of its dot product with
    itself. *)
Definition linalg_norm (a : ndarray) : float := PrimFloat.sqrt (dot a a).

End Numpy.

(** ** services/distance_calculator.py *)

Module DistanceCalculator.

Import Numpy.
Local Open Scope float_scope.

Definition supported_types : list string :=
  ["euclidean"; "manhattan"; "cosine"; "hamming"; "jaccard"]%string.

(** What a metric hands back before [float(distance)]: a [float64], or the
    integer count of [_hamming_distance]. *)
Inductive scalar : Type :=
| Float64 (f : float)
| Int64 (z : Z).

(** [float(distance)]: the identity on a float, the nearest binary64 value
    of an integer. *)
Definition py_float (d : scalar) : float :=
  match d with
  | Float64 f => f
  | Int64 z => SF2Prim (binary_normalize prec emax z 0%Z false)
  end.

Definition _euclidean_distance (point_a point_b : ndarray) : scalar :=
  Float64 (linalg_norm (subtract point_a point_b)).

Definition _manhattan_distance (point_a point_b : ndarray) : scalar :=
  Float64 (sum (absolute (subtract point_a point_b))).

Definition _cosine_distance (point_a point_b : ndarray) : scalar :=
  let dot_product := dot point_a point_b in
  let norm_a := linalg_norm point_a in
  let norm_b := linalg_norm point_b in
  if (norm_a =? 0) || (norm_b =? 0) then Float64 1
  else Float64 (1 - dot_product / (norm_a * norm_b)).

Definition _hamming_distance (point_a point_b : ndarray) : scalar :=
  Int64 (count_true (not_equal point_a point_b)).

Definition _jaccard_distance (point_a point_b : ndarray) : scalar :=
  let intersection := sum (minimum point_a point_b) in
  let union := sum (maximum point_a point_b) in
  if union =? 0 then Float64 0
  else Float64 (1 - intersection / union).

Definition _get_timestamp : M string :=
  fun w => (Ok (clock w (clock_reads w)),
            mkWorld (clock w) (uuid4 w) (S (clock_reads w)) (uuid_draws w)).

Definition _generate_calculation_id : M string :=
  fun w => (Ok (uuid4 w (uuid_draws w)),
            mkWorld (clock w) (uuid4 w) (clock_reads w) (S (uuid_draws w))).

Record Metadata : Type := mkMetadata {
  timestamp : string;
  calculation_id : string
}.

(** The dictionary [calculate] returns. *)
Record PairwiseResult : Type := mkPairwiseResult {
  distance : float;
  calculation_type : string;
  point_a : list float;
  point_b : list float;
  dimensionality : nat;
  metadata : Metadata
}.

(** The [if]/[elif] chain of [calculate]; no branch binds [distance] for
    another name. *)
Definition dispatch (calculation_type : string) (arr_a arr_b : ndarray)
  : option scalar :=
  if (calculation_type =? "euclidean")%string then Some (_euclidean_distance arr_a arr_b)
  else if (calculation_type =? "manhattan")%string then Some (_manhattan_distance arr_a arr_b)
  else if (calculation_type =? "cosine")%string then Some (_cosine_distance arr_a arr_b)
  else if (calculation_type =? "hamming")%string then Some (_hamming_distance arr_a arr_b)
  else if (calculation_type =? "jaccard")%string then Some (_jaccard_distance arr_a arr_b)
  else None.

Definition is_supported (calculation_type : string) : bool :=
  existsb (String.eqb calculation_type) supported_types.

Definition calculate (point_a point_b : list float) (calculation_type : string)
  : M PairwiseResult :=
  if negb (is_supported calculation_type) then
    raise (ValueError ("Unsupported calculation type: " ++ calculation_type))
  else if negb (List.length point_a =? List.length point_b)%nat then
    raise (ValueError "Points must have same dimensionality")
  else
    let arr_a := array point_a in
    let arr_b := array point_b in
    match dispatch calculation_type arr_a arr_b with
    | None => raise UnboundLocalError
    | Some distance =>
        ts <- _get_timestamp ;;
        id <- _generate_calculation_id ;;
        ret (mkPairwiseResult (py_float distance) calculation_type
               point_a point_b (List.length point_a) (mkMetadata ts id))
    end.

(** An entry of [calculation_pairs]. *)
Record CalculationPair : Type := mkPair {
  point_indices : nat * nat;
  pair_distance : float
}.

Record BatchMetadata : Type := mkBatchMetadata {
  batch_timestamp : string;
  batch_id : string;
  point_count : nat
}.

(** The dictionary [batch_calculate] returns. *)
Record BatchResult : Type := mkBatchResult {
  distance_matrix : list (list float);
  batch_calculation_type : string;
  points : list (list float);
  calculation_pairs : list CalculationPair;
  batch_metadata : BatchMetadata
}.

(** The body of the inner loop [for j in range(len(points))]. *)
Definition inner_body (points : list (list float)) (calculation_type : string)
    (i j : nat) (st : list float * list CalculationPair)
  : M (list float * list CalculationPair) :=
  let '(row, calculation_pairs) := st in
  if (i =? j)%nat then ret (row ++ [0], calculation_pairs)
  else
    p_i <- getitem points i ;;
    p_j <- getitem points j ;;
    result <- calculate p_i p_j calculation_type ;;
    ret (row ++ [distance result],
         if (i <? j)%nat
         then calculation_pairs ++ [mkPair (i, j) (distance result)]
         else calculation_pairs).

(** The body of the outer loop [for i in range(len(points))]. *)
Definition outer_body (points : list (list float)) (calculation_type : string)
    (i : nat) (st : list (list float) * list CalculationPair)
  : M (list (list float) * list CalculationPair) :=
  let '(distance_matrix, calculation_pairs) := st in
  st' <- for_each (seq 0 (List.length points))
           (inner_body points calculation_type i) ([], calculation_pairs) ;;
  ret (distance_matrix ++ [fst st'], snd st').

Definition batch_calculate (points : list (list float)) (calculation_type : string)
  : M BatchResult :=
  if (List.length points <? 2)%nat then
    raise (ValueError "At least 2 points required for batch calculation")
  else
    st <- for_each (seq 0 (List.length points))
            (outer_body points calculation_type) ([], []) ;;
    ts <- _get_timestamp ;;
    id <- _generate_calculation_id ;;
    ret (mkBatchResult (fst st) calculation_type points (snd st)
           (mkBatchMetadata ts id (List.length points))).

(** The conditions of the specification, as the exceptions that signal them. *)
Definition InvalidMetric (e : exn) : Prop :=
  exists t, e = ValueError ("Unsupported calculation type: " ++ t).
Definition DimensionMismatch (e : exn) : Prop :=
  e = ValueError "Points must have same dimensionality".
Definition InsufficientPoints (e : exn) : Prop :=
  e = ValueError "At least 2 points required for batch calculation".

End DistanceCalculator.

(** ** Python values: request bodies and result structures *)

Module Py.

Local Open Scope string_scope.

(** The values a request body or a result structure is built from. The keys
    of a dictionary are strings (the dictionaries of the routes come from
    JSON and from the services); its items are kept in insertion order. An
    [VObject] is any other object, known by what [str()] and [repr()] return
    for it: it is true, and it has no length, no items and no elements. *)
Inductive value : Type :=
| VNone
| VBool (b : bool)
| VInt (z : Z)
| VFloat (f : float)
| VStr (s : string)
| VList (xs : list value)
| VTuple (xs : list value)
| VDict (items : list (string * value))
| VObject (str_text repr_text : string).

(** [key in d] and [d.get(key)] on the items of a dictionary. *)
Fixpoint dict_get (items : list (string * value)) (key : string) : option value :=
  match items with
  | [] => None
  | (k, v) :: items' => if (k =? key)%string then Some v else dict_get items' key
  end.

Definition dict_has (items : list (string * value)) (key : string) : bool :=
  match dict_get items key with
  | Some _ => true
  | None => false
  end.

(** [d[key] = v]: the value of a key already there is replaced in place, a
    new key goes last. *)
Fixpoint dict_set (items : list (string * value)) (key : string) (v : value)
  : list (string * value) :=
  match items with
  | [] => [(key, v)]
  | (k, v') :: items' =>
      if (k =? key)%string then (k, v) :: items'
      else (k, v') :: dict_set items' key v
  end.

(** The dictionary built by setting the pairs one after the other. *)
Definition dict_of_items (pairs : list (string * value)) : list (string * value) :=
  fold_left (fun d kv => dict_set d (fst kv) (snd kv)) pairs [].

(** [bool(v)], what [not v] negates. *)
Definition truthy (v : value) : bool :=
  match v with
  | VNone => false
  | VBool b => b
  | VInt z => negb (z =? 0)%Z
  | VFloat f => negb (f =? 0)%float
  | VStr s => negb (s =? "")%string
  | VList xs | VTuple xs => negb (Nat.eqb (List.length xs) 0)
  | VDict items => negb (Nat.eqb (List.length items) 0)
  | VObject _ _ => true
  end.

(** [float(z)] of an integer: the nearest binary64 value. *)
Definition float_of_Z (z : Z) : float :=
  SF2Prim (binary_normalize prec emax z 0%Z false).

(** [str(n)] of an integer. *)
Definition str_of_Z (z : Z) : string := NilZero.string_of_int (Z.to_int z).
Definition str_of_nat (n : nat) : string := NilZero.string_of_uint (Nat.to_uint n).

(** [sep.join(parts)]. *)
Fixpoint join (sep : string) (parts : list string) : string :=
  match parts with
  | [] => ""
  | [p] => p
  | p :: rest => p ++ sep ++ join sep rest
  end.

(** The one-character strings of a string, as iterating over it yields. *)
Fixpoint chars (s : string) : list string :=
  match s with
  | EmptyString => []
  | String c s' => String c EmptyString :: chars s'
  end.

(** [len(v)]. *)
Definition len (v : value) : M nat :=
  match v with
  | VList xs | VTuple xs => ret (List.length xs)
  | VDict items => ret (List.length items)
  | VStr s => ret (String.length s)
  | _ => raise TypeError
  end.

(** The elements [for x in v] goes through. *)
Definition iter (v : value) : M (list value) :=
  match v with
  | VList xs | VTuple xs => ret xs
  | VDict items => ret (map (fun kv => VStr (fst kv)) items)
  | VStr s => ret (map VStr (chars s))
  | _ => raise TypeError
  end.

(** [v[key]] with a string key. *)
Definition subscript_key (v : value) (key : string) : M value :=
  match v with
  | VDict items =>
      match dict_get items key with
      | Some x => ret x
      | None => raise KeyError
      end
  | _ => raise TypeError
  end.

(** [v[i]] with an integer index that is not negative. *)
Definition subscript_index (v : value) (i : nat) : M value :=
  match v with
  | VList xs | VTuple xs =>
      match nth_error xs i with
      | Some x => ret x
      | None => raise IndexError
      end
  | VStr s =>
      match nth_error (chars s) i with
      | Some c => ret (VStr c)
      | None => raise IndexError
      end
  | VDict _ => raise KeyError
  | _ => raise TypeError
  end.

Section Runtime.

(** [repr] of a float and of a string are the interpreter's. *)
Variable float_repr : float -> string.
Variable str_repr : string -> string.

Fixpoint repr (v : value) : string :=
  match v with
  | VNone => "None"
  | VBool true => "True"
  | VBool false => "False"
  | VInt z => str_of_Z z
  | VFloat f => float_repr f
  | VStr s => str_repr s
  | VList xs => "[" ++ join ", " (map repr xs) ++ "]"
  | VTuple xs =>
      match xs with
      | [x] => "(" ++ repr x ++ ",)"
      | _ => "(" ++ join ", " (map repr xs) ++ ")"
      end
  | VDict items =>
      "{" ++ join ", " (map (fun kv => str_repr (fst kv) ++ ": " ++ repr (snd kv)) items) ++ "}"
  | VObject _ r => r
  end.

(** [str(v)]. *)
Definition str (v : value) : string :=
  match v with
  | VStr s => s
  | VObject s _ => s
  | _ => repr v
  end.

End Runtime.

End Py.

(** ** The json and csv modules of the standard library *)

Module Json.

Import Py.
Local Open Scope string_scope.

(** A JSON document. [json.dumps] writes one as text and [json.loads] reads
    the text back to the same document; the model keeps the document. *)
Inductive document : Type :=
| JNull
| JBool (b : bool)
| JInt (z : Z)
| JFloat (f : float)
| JString (s : string)
| JArray (elements : list document)
| JObject (members : list (string * document)).

(** [json.dumps(v, indent=2, default=str)]: lists and tuples become arrays,
    and a value json does not know is replaced by [str] of it. *)
Fixpoint dumps (v : value) : document :=
  match v with
  | VNone => JNull
  | VBool b => JBool b
  | VInt z => JInt z
  | VFloat f => JFloat f
  | VStr s => JString s
  | VList xs | VTuple xs => JArray (map dumps xs)
  | VDict items => JObject (map (fun kv => (fst kv, dumps (snd kv))) items)
  | VObject s _ => JString s
  end.

(** [json.loads]: arrays become lists, objects become dictionaries filled
    member after member. *)
Fixpoint loads (j : document) : value :=
  match j with
  | JNull => VNone
  | JBool b => VBool b
  | JInt z => VInt z
  | JFloat f => VFloat f
  | JString s => VStr s
  | JArray elements => VList (map loads elements)
  | JObject members => VDict (dict_of_items (map (fun kj => (fst kj, loads (snd kj))) members))
  end.

End Json.

Module Csv.

Import Py.
Local Open Scope string_scope.

Definition cr : ascii := "013".
Definition lf : ascii := "010".
Definition quotechar : ascii := "034".
Definition delimiter : ascii := ",".
Definition lineterminator : string := String cr (String lf EmptyString).

Fixpoint contains (c : ascii) (s : string) : bool :=
  match s with
  | EmptyString => false
  | String c' s' => Ascii.eqb c c' || contains c s'
  end.

(** A field is quoted when it holds the delimiter, the quote character or a
    character of the line terminator. *)
Definition needs_quotes (field : string) : bool :=
  contains delimiter field || contains quotechar field
  || contains cr field || contains lf field.

(** Quote characters inside a quoted field are doubled. *)
Fixpoint double_quotes (s : string) : string :=
  match s with
  | EmptyString => EmptyString
  | String c s' =>
      if Ascii.eqb c quotechar then String c (String c (double_quotes s'))
      else String c (double_quotes s')
  end.

Definition quoted (field : string) : string :=
  String quotechar (double_quotes field ++ String quotechar EmptyString).

Definition write_field (field : string) : string :=
  if needs_quotes field then quoted field else field.

Section Runtime.

Variable float_repr : float -> string.
Variable str_repr : string -> string.

(** The text of a field: empty for [None], the string itself, else [str]. *)
Definition field_text (v : value) : string :=
  match v with
  | VNone => ""
  | _ => str float_repr str_repr v
  end.

(** The line [writer.writerow(row)] writes; a row of one empty field is
    written as a pair of quotes. *)
Definition row_text (row : list value) : string :=
  match map field_text row with
  | [EmptyString] => quoted ""
  | fields => join (String delimiter EmptyString) (map write_field fields)
  end ++ lineterminator.

(** [writer.writerow(row)] on the buffer [output]. *)
Definition writerow (output : string) (row : list value) : string :=
  output ++ row_text row.

End Runtime.

End Csv.

(** ** services/results_exporter.py *)

Module ResultsExporter.

Import Py.
Local Open Scope string_scope.

Definition _get_timestamp : M string :=
  fun w => (Ok (clock w (clock_reads w)),
            mkWorld (clock w) (uuid4 w) (S (clock_reads w)) (uuid_draws w)).

(** The text is kept as the JSON document it denotes. *)
Definition _export_json (results_data : value) : M Json.document :=
  ts <- _get_timestamp ;;
  let export_data :=
    VDict [("export_info", VDict [("format", VStr "json");
                                  ("timestamp", VStr ts);
                                  ("version", VStr "1.0")]);
           ("results", results_data)] in
  ret (Json.dumps export_data).

Section Runtime.

Variable float_repr : float -> string.
Variable str_repr : string -> string.

Let writerow := Csv.writerow float_repr str_repr.

(** [f'P{i}']. *)
Definition label (i : nat) : value := VStr ("P" ++ str_of_nat i).

(** [zip(range(len(xs)), xs)], what [enumerate] yields. *)
Definition enumerate {A} (xs : list A) : list (nat * A) :=
  combine (seq 0 (List.length xs)) xs.

Definition _export_csv (results_data : list (string * value)) : M string :=
  let output := "" in
  if dict_has results_data "distance_matrix" then
    matrix <- subscript_key (VDict results_data) "distance_matrix" ;;
    n <- len matrix ;;
    let header := VStr "Point" :: map label (seq 0 n) in
    let output := writerow output header in
    rows <- iter matrix ;;
    for_each (enumerate rows)
      (fun ir output =>
         match snd ir with
         | VList row => ret (writerow output (label (fst ir) :: row))
         | _ => raise TypeError
         end) output
  else if dict_has results_data "calculation_pairs" then
    pairs <- subscript_key (VDict results_data) "calculation_pairs" ;;
    let output :=
      writerow output [VStr "Point_A_Index"; VStr "Point_B_Index"; VStr "Distance"] in
    pairs <- iter pairs ;;
    for_each pairs
      (fun pair output =>
         indices <- subscript_key pair "point_indices" ;;
         index_a <- subscript_index indices 0 ;;
         index_b <- subscript_index indices 1 ;;
         distance <- subscript_key pair "distance" ;;
         ret (writerow output [index_a; index_b; distance])) output
  else
    let output := writerow output [VStr "Key"; VStr "Value"] in
    for_each results_data
      (fun kv output =>
         ret (writerow output [VStr (fst kv); VStr (str float_repr str_repr (snd kv))]))
      output.

End Runtime.

End ResultsExporter.

(** ** app.py: the calculate-distance route *)

Module App.

Import Py.
Local Open Scope string_scope.

(** What a handler returns: the status code and the body [jsonify] is given. *)
Record response : Type := mkResponse {
  status : nat;
  body : value
}.

(** A point of the request as a list of floats: a list of numbers, an integer
    read as the float of the same value. *)
Fixpoint as_floats (xs : list value) : option (list float) :=
  match xs with
  | [] => Some []
  | VFloat f :: xs' => option_map (cons f) (as_floats xs')
  | VInt z :: xs' => option_map (cons (float_of_Z z)) (as_floats xs')
  | _ :: _ => None
  end.

Definition as_point (v : value) : option (list float) :=
  match v with
  | VList xs => as_floats xs
  | _ => None
  end.

(** The dictionary of a pairwise result, with the points as the request gave
    them. *)
Definition result_dict (point_a point_b : value) (r : DistanceCalculator.PairwiseResult)
  : value :=
  VDict [("distance", VFloat (DistanceCalculator.distance r));
         ("calculation_type", VStr (DistanceCalculator.calculation_type r));
         ("point_a", point_a);
         ("point_b", point_b);
         ("dimensionality", VInt (Z.of_nat (DistanceCalculator.dimensionality r)));
         ("metadata",
           VDict [("timestamp",
                    VStr (DistanceCalculator.timestamp (DistanceCalculator.metadata r)));
                  ("calculation_id",
                    VStr (DistanceCalculator.calculation_id (DistanceCalculator.metadata r)))])].

Definition error_body (message : string) : value := VDict [("error", VStr message)].

(** [data.get(key)] and [data.get(key, default)]. *)
Definition get (data : list (string * value)) (key : string) (default : value) : value :=
  match dict_get data key with
  | Some v => v
  | None => default
  end.

(** The handler of [POST /api/calculate-distance] on the parsed JSON body.
    Every exception of the [try] block ends in the 500 answer. The result is
    [None] where the model does not follow the code: a point that is true but
    is not a list of numbers. *)
Definition calculate_distance (data : value) : World -> option (response * World) :=
  fun w =>
    match data with
    | VDict items =>
        let point_a := get items "point_a" VNone in
        let point_b := get items "point_b" VNone in
        let calculation_type := get items "type" (VStr "euclidean") in
        if negb (truthy point_a) || negb (truthy point_b) then
          Some (mkResponse 400 (error_body "Both points are required"), w)
        else
          match as_point point_a, as_point point_b with
          | Some a, Some b =>
              match calculation_type with
              | VStr t =>
                  match DistanceCalculator.calculate a b t w with
                  | (Ok result, w') =>
                      Some (mkResponse 200 (result_dict point_a point_b result), w')
                  | (Raise _, w') =>
                      Some (mkResponse 500 (error_body "Calculation failed"), w')
                  end
              | _ =>
                  (* no other value is in [supported_types]: ValueError *)
                  Some (mkResponse 500 (error_body "Calculation failed"), w)
              end
          | _, _ => None
          end
    | _ =>
        (* [data.get] on a body that is not a dictionary: AttributeError *)
        Some (mkResponse 500 (error_body "Calculation failed"), w)
    end.

End App.

(** ** Vocabulary of the statements *)

Module F64Spec.

(** Two floats that are the same value or two zeros (of any signs): what
    [x == y] of the code means away from NaN. *)
Definition SFis_zero (a : spec_float) : Prop := exists s, a = S754_zero s.
Definition SFsim (a b : spec_float) : Prop := a = b \/ (SFis_zero a /\ SFis_zero b).
Definition sim (x y : float) : Prop := SFsim (Prim2SF x) (Prim2SF y).

End F64Spec.

Import DistanceCalculator.

(** The world used to run examples: every clock read and every id is the
    empty string. *)
Definition quiet_world : World := mkWorld (fun _ => "") (fun _ => "") 0 0.

(** The world after one clock read and one id draw. *)
Definition tick (w : World) : World :=
  mkWorld (clock w) (uuid4 w) (S (clock_reads w)) (S (uuid_draws w)).

(** The distance [calculate] puts in its result for a supported metric. *)
Definition metric (t : string) (a b : list float) : float :=
  match dispatch t (Numpy.array a) (Numpy.array b) with
  | Some d => py_float d
  | None => 0%float
  end.

(** [matrix[i][j]], when both indices are in range. *)
Definition matrix_entry (m : list (list float)) (i j : nat) : option float :=
  match nth_error m i with
  | Some row => nth_error row j
  | None => None
  end.

(** The entry [(i, j)] of the matrix a successful batch builds. *)
Definition batch_entry (points : list (list float)) (t : string) (i j : nat) : float :=
  if (i =? j)%nat then 0%float
  else metric t (nth i points []) (nth j points []).

(** The pairs the inner loop adds while it builds row [i] over the columns
    [js]. *)
Definition row_pairs (points : list (list float)) (t : string) (i : nat) (js : list nat)
  : list CalculationPair :=
  flat_map (fun j => if (i <? j)%nat then [mkPair (i, j) (batch_entry points t i j)] else []) js.

(** All points of a batch have one dimensionality. *)
Definition same_dimensionality (points : list (list float)) : Prop :=
  forall p q, In p points -> In q points -> List.length p = List.length q.

(** Whether a pair is the one stored for the indices [(i, j)]. *)
Definition has_indices (i j : nat) (p : CalculationPair) : bool :=
  ((fst (point_indices p) =? i) && (snd (point_indices p) =? j))%nat.

(** A field of the request body that is absent or is the empty list. *)
Definition missing_or_empty (items : list (string * Py.value)) (key : string) : Prop :=
  Py.dict_get items key = None \/ Py.dict_get items key = Some (Py.VList []).

(** Values json writes and reads back as they are: no tuple, no foreign
    object, dictionaries with distinct keys. *)
Fixpoint distinct (keys : list string) : bool :=
  match keys with
  | [] => true
  | k :: keys' => negb (existsb (String.eqb k) keys') && distinct keys'
  end.

Fixpoint json_native (v : Py.value) : bool :=
  match v with
  | Py.VNone | Py.VBool _ | Py.VInt _ | Py.VFloat _ | Py.VStr _ => true
  | Py.VList xs => forallb json_native xs
  | Py.VDict items =>
      distinct (map fst items) && forallb (fun kv => json_native (snd kv)) items
  | Py.VTuple _ | Py.VObject _ _ => false
  end.

(** [parsed['results']] of a parsed export. *)
Definition results_of (parsed : Py.value) : option Py.value :=
  match parsed with
  | Py.VDict items => Py.dict_get items "results"
  | _ => None
  end.

(** The text of a csv file with the given rows. *)
Definition csv_text (float_repr : float -> string) (str_repr : string -> string)
    (rows : list (list Py.value)) : string :=
  fold_right (fun row text => (Csv.row_text float_repr str_repr row ++ text)%string) "" rows.

(** The row of the matrix export for point [i]: its label, then the entries. *)
Definition matrix_row (ir : nat * list Py.value) : list Py.value :=
  ResultsExporter.label (fst ir) :: snd ir.

(** A calculation pair holding the indices [a], [b] and the distance [d]. *)
Definition pair_fields (pair : Py.value) (abd : Py.value * Py.value * Py.value) : Prop :=
  exists items indices,
    pair = Py.VDict items /\
    Py.dict_get items "point_indices" = Some (Py.VList indices) /\
    nth_error indices 0 = Some (fst (fst abd)) /\
    nth_error indices 1 = Some (snd (fst abd)) /\
    Py.dict_get items "distance" = Some (snd abd).

Definition pair_row (abd : Py.value * Py.value * Py.value) : list Py.value :=
  [fst (fst abd); snd (fst abd); snd abd].

(** Result structures used to run the csv export. *)
Definition sample_matrix_and_pairs : list (string * Py.value) :=
  [("calculation_pairs", Py.VList []);
   ("distance_matrix", Py.VList [Py.VList [Py.VInt 0; Py.VInt 7];
                                 Py.VList [Py.VInt 7; Py.VInt 0]])].

Definition sample_pairs : list (string * Py.value) :=
  [("calculation_pairs",
     Py.VList [Py.VDict [("point_indices", Py.VList [Py.VInt 0; Py.VInt 1]);
                         ("distance", Py.VInt 5)]])].

Definition sample_other : list (string * Py.value) :=
  [("calculation_type", Py.VStr "euclidean"); ("points", Py.VList [Py.VInt 1; Py.VInt 2])].

(** ** services/results_exporter.py: the public [export] *)

Module ExportService.

Import Py.
Local Open Scope string_scope.

Definition supported_formats : list string :=
  ["json"; "csv"; "xml"; "excel"; "txt"; "html"].

(** [datetime.now().strftime("%Y%m%d_%H%M%S")] is a clock read, rendered in
    that format. *)
Definition _generate_filename (export_format : string) : M string :=
  timestamp <- ResultsExporter._get_timestamp ;;
  ret ("distance_analysis_" ++ timestamp ++ "." ++ export_format).

Definition _generate_export_id : M string :=
  fun w => (Ok (uuid4 w (uuid_draws w)),
            mkWorld (clock w) (uuid4 w) (clock_reads w) (S (uuid_draws w))).

(** What a writer hands back: the JSON text (kept as its document) or the csv
    text. *)
Inductive exported : Type :=
| JsonText (document : Json.document)
| CsvText (text : string).

Record ExportMetadata : Type := mkExportMetadata {
  timestamp : string;
  export_id : string;
  original_data_size : nat
}.

(** The dictionary [export] returns. *)
Record ExportResult : Type := mkExportResult {
  format : string;
  data : exported;
  filename : string;
  metadata : ExportMetadata
}.

(** ['key' in xs] on a list: some element equals the string. *)
Definition list_has (xs : list value) (key : string) : bool :=
  existsb (fun x => match x with VStr s => (s =? key)%string | _ => false end) xs.

(** ['key' in s] on a string: [key] occurs in [s]. *)
Definition str_has (s key : string) : bool :=
  match index 0 key s with
  | Some _ => true
  | None => false
  end.

Section Runtime.

Variable float_repr : float -> string.
Variable str_repr : string -> string.

(** [_export_csv] on a value of any type. A dictionary goes through the
    three shapes. A list, a tuple or a string passes the [in] tests, then its
    subscript by a string is a TypeError, or its missing [items] an
    AttributeError; None, a boolean or a number fails the first [in] test.
    There is no answer for a foreign object, whose [in] is its own. *)
Definition export_csv_value (results_data : value) : option (M string) :=
  match results_data with
  | VDict items => Some (ResultsExporter._export_csv float_repr str_repr items)
  | VList xs | VTuple xs =>
      Some (if list_has xs "distance_matrix" then raise TypeError
            else if list_has xs "calculation_pairs" then raise TypeError
            else raise AttributeError)
  | VStr s =>
      Some (if str_has s "distance_matrix" then raise TypeError
            else if str_has s "calculation_pairs" then raise TypeError
            else raise AttributeError)
  | VNone | VBool _ | VInt _ | VFloat _ => Some (raise TypeError)
  | VObject _ _ => None
  end.

(** The writer [export] picks for a supported format; [None] for the writers
    that are not modelled (xml, excel, txt, html) and for the csv writer on a
    foreign object. *)
Definition writer (results_data : value) (export_format : string) : option (M exported) :=
  if (export_format =? "json")%string then
    Some (text <- ResultsExporter._export_json results_data ;; ret (JsonText text))
  else if (export_format =? "csv")%string then
    match export_csv_value results_data with
    | Some run => Some (text <- run ;; ret (CsvText text))
    | None => None
    end
  else None.

Definition export (results_data : value) (export_format : string)
  : World -> option (outcome ExportResult * World) :=
  fun w =>
    if negb (existsb (String.eqb export_format) supported_formats) then
      Some (Raise (ValueError ("Unsupported export format: " ++ export_format)), w)
    else
      match writer results_data export_format with
      | None => None
      | Some run =>
          Some ((exported_data <- run ;;
                 name <- _generate_filename export_format ;;
                 stamp <- ResultsExporter._get_timestamp ;;
                 id <- _generate_export_id ;;
                 ret (mkExportResult export_format exported_data name
                        (mkExportMetadata stamp id
                           (String.length (str float_repr str_repr results_data))))) w)
      end.

End Runtime.

End ExportService.

(** ** services/visualization_generator.py: what [generate] checks *)

Module VisualizationGenerator.

Import Py.
Local Open Scope string_scope.

Definition supported_chart_types : list string :=
  ["scatter"; "heatmap"; "network"; "histogram"; "line"].

(** The data a chart needs before anything is drawn: the key [generate]
    reads, and the message of the ValueError raised when the value is not
    true. *)
Definition required_data (chart_type : string) : option (string * string) :=
  if (chart_type =? "scatter")%string then
    Some ("points", "Points data required for scatter plot")
  else if (chart_type =? "heatmap")%string then
    Some ("distance_matrix", "Distance matrix required for heatmap")
  else if (chart_type =? "network")%string then
    Some ("points", "Points data required for network plot")
  else if (chart_type =? "histogram")%string then
    Some ("distances", "Distance data required for histogram")
  else if (chart_type =? "line")%string then
    Some ("distances", "Distance data required for line plot")
  else None.

Section Runtime.

Variable float_repr : float -> string.
Variable str_repr : string -> string.

(** [generate] up to the first drawing call. Setting the style and the colour
    parameters of the plotting library does not depend on the request. The
    result is [None] once the data check of the chart has passed: the drawing
    itself is not modelled. *)
Definition generate (config : list (string * value)) : World -> option (outcome value * World) :=
  fun w =>
    let chart_type := App.get config "chart_type" (VStr "scatter") in
    let unsupported :=
      Raise (ValueError ("Unsupported chart type: " ++ str float_repr str_repr chart_type)) in
    match chart_type with
    | VStr name =>
        if negb (existsb (String.eqb name) supported_chart_types) then Some (unsupported, w)
        else
          match required_data name with
          | Some (key, message) =>
              if negb (truthy (App.get config key (VList []))) then
                Some (Raise (ValueError message), w)
              else None
          | None => Some (Raise UnboundLocalError, w)
          end
    | _ => Some (unsupported, w)
    end.

End Runtime.

End VisualizationGenerator.

(** ** app.py: the other routes *)

Module Routes.

Import Py.
Local Open Scope string_scope.

(** The answer of the export route: the status code, and the export result
    or the error message. *)
Record export_response : Type := mkExportResponse {
  export_status : nat;
  export_body : ExportService.ExportResult + string
}.

Section Runtime.

Variable float_repr : float -> string.
Variable str_repr : string -> string.

(** The handler of [POST /api/export-results] on the parsed JSON body. *)
Definition export_results (data : value) : World -> option (export_response * World) :=
  fun w =>
    match data with
    | VDict items =>
        let export_format := App.get items "format" (VStr "json") in
        let results_data := App.get items "results" (VDict []) in
        match export_format with
        | VStr name =>
            match ExportService.export float_repr str_repr results_data name w with
            | Some (Ok result, w') => Some (mkExportResponse 200 (inl result), w')
            | Some (Raise _, w') => Some (mkExportResponse 500 (inr "Export failed"), w')
            | None => None
            end
        | _ =>
            (* no other value is in [supported_formats]: ValueError *)
            Some (mkExportResponse 500 (inr "Export failed"), w)
        end
    | _ =>
        (* [data.get] on a body that is not a dictionary: AttributeError *)
        Some (mkExportResponse 500 (inr "Export failed"), w)
    end.

(** The handler of [POST /api/generate-visualization]. *)
Definition generate_visualization (data : value) : World -> option (App.response * World) :=
  fun w =>
    match data with
    | VDict items =>
        let visualization_config :=
          [("points", App.get items "points" (VList []));
           ("distances", App.get items "distances" (VList []));
           ("chart_type", App.get items "chart_type" (VStr "scatter"));
           ("style", App.get items "style" (VStr "default"))] in
        match VisualizationGenerator.generate float_repr str_repr visualization_config w with
        | Some (Ok visualization_result, w') =>
            Some (App.mkResponse 200 visualization_result, w')
        | Some (Raise _, w') =>
            Some (App.mkResponse 500 (App.error_body "Visualization generation failed"), w')
        | None => None
        end
    | _ =>
        Some (App.mkResponse 500 (App.error_body "Visualization generation failed"), w)
    end.

End Runtime.

(** The handler of [GET /health]. *)
Definition health_check : App.response :=
  App.mkResponse 200 (VDict [("status", VStr "healthy"); ("service", VStr "distance-server")]).

End Routes.

(** ** Vocabulary of the further properties *)


(** The world after [k] successful calls of [calculate]. *)
Definition ticks (k : nat) (w : World) : World :=
  mkWorld (clock w) (uuid4 w) (k + clock_reads w) (k + uuid_draws w).

(** The dictionary [batch_calculate] returns, as a value. *)
Definition point_value (p : list float) : Py.value := Py.VList (map Py.VFloat p).

Definition batch_dict (r : BatchResult) : list (string * Py.value) :=
  [("distance_matrix", Py.VList (map point_value (distance_matrix r)));
   ("calculation_type", Py.VStr (batch_calculation_type r));
   ("points", Py.VList (map point_value (points r)));
   ("calculation_pairs",
     Py.VList (map (fun p =>
                      Py.VDict [("point_indices",
                                  Py.VList [Py.VInt (Z.of_nat (fst (point_indices p)));
                                            Py.VInt (Z.of_nat (snd (point_indices p)))]);
                                ("distance", Py.VFloat (pair_distance p))])
                 (calculation_pairs r)));
   ("metadata",
     Py.VDict [("timestamp", Py.VStr (batch_timestamp (batch_metadata r)));
               ("batch_id", Py.VStr (batch_id (batch_metadata r)));
               ("point_count", Py.VInt (Z.of_nat (point_count (batch_metadata r))))])].

(** A value with no length and no elements. *)
Definition unsized (v : Py.value) : Prop :=
  match v with
  | Py.VNone | Py.VBool _ | Py.VInt _ | Py.VFloat _ | Py.VObject _ _ => True
  | _ => False
  end.

(** A value that is not a list. *)
Definition not_a_list (v : Py.value) : Prop :=
  match v with
  | Py.VList _ => False
  | _ => True
  end.

(** A value that is neither a dictionary nor a foreign object. *)
Definition not_a_dict (v : Py.value) : Prop :=
  match v with
  | Py.VDict _ | Py.VObject _ _ => False
  | _ => True
  end.

(** The chart type a request names: the string under 'chart_type', scatter
    when the key is absent. *)
Definition chart_type_of (items : list (string * Py.value)) : Py.value :=
  App.get items "chart_type" (Py.VStr "scatter").

(** * Properties *)

(** ** Binary64 arithmetic: the facts the metrics rest on *)

Module F64.

Local Open Scope float_scope.

Lemma mul_comm (x y : float) : x * y = y * x.
Proof.
  apply Prim2SF_inj. rewrite !mul_spec. unfold SF64mul, SFmul.
  destruct (Prim2SF x) as [sx|sx| |sx mx ex], (Prim2SF y) as [sy|sy| |sy my ey];
    try reflexivity; rewrite 1?(xorb_comm sx sy); try reflexivity.
  now rewrite Pos.mul_comm, Z.add_comm.
Qed.


Lemma SFabs_round_aux s m e l :
  SFabs (binary_round_aux prec emax s m e l) = SFabs (binary_round_aux prec emax false m e l).
Proof.
  unfold binary_round_aux.
  destruct (shr_fexp prec emax m e l) as [mrs' e'].
  destruct (shr_fexp prec emax _ e' loc_Exact) as [mrs'' e''].
  destruct (shr_m mrs''); try reflexivity.
  destruct (Z.leb e'' _); reflexivity.
Qed.

Lemma SFabs_round s m e :
  SFabs (binary_round prec emax s m e) = SFabs (binary_round prec emax false m e).
Proof.
  unfold binary_round. destruct (shl_align _ _ _) as [mz ez]. apply SFabs_round_aux.
Qed.

Lemma SFabs_normalize_opp m e :
  SFabs (binary_normalize prec emax (- m) e false) = SFabs (binary_normalize prec emax m e false).
Proof.
  destruct m; simpl; try reflexivity.
  - apply SFabs_round.
  - symmetry. apply SFabs_round.
Qed.

Lemma SFabs_sub_sym a b : SFabs (SF64sub a b) = SFabs (SF64sub b a).
Proof.
  unfold SF64sub, SFsub.
  destruct a as [sa|sa| |sa ma ea], b as [sb|sb| |sb mb eb]; try reflexivity;
    try (destruct sa, sb; reflexivity).
  cbv zeta. rewrite (Z.min_comm eb ea).
  rewrite <- SFabs_normalize_opp. f_equal. f_equal. lia.
Qed.

Lemma abs_sub_sym (x y : float) : abs (x - y) = abs (y - x).
Proof.
  apply Prim2SF_inj. rewrite !abs_spec, !sub_spec. apply SFabs_sub_sym.
Qed.

Lemma SFmul_self_abs a : SF64mul a a = SF64mul (SFabs a) (SFabs a).
Proof.
  unfold SF64mul, SFmul. destruct a as [s|s| |s m e]; try reflexivity; destruct s; reflexivity.
Qed.

Lemma sqr_abs (x : float) : x * x = abs x * abs x.
Proof.
  apply Prim2SF_inj. rewrite !mul_spec, abs_spec. apply SFmul_self_abs.
Qed.

Lemma sqr_sub_sym (x y : float) : (x - y) * (x - y) = (y - x) * (y - x).
Proof. rewrite (sqr_abs (x - y)), (sqr_abs (y - x)), (abs_sub_sym x y). reflexivity. Qed.

Lemma SFcompare_antisym a b : SFcompare b a = option_map CompOpp (SFcompare a b).
Proof.
  destruct a as [sa|sa| |sa ma ea], b as [sb|sb| |sb mb eb]; try reflexivity;
    try (destruct sa; reflexivity); try (destruct sb; reflexivity);
    try (destruct sa, sb; reflexivity).
  simpl. destruct sa, sb; try reflexivity;
  rewrite (Z.compare_antisym ea eb); destruct (Z.compare ea eb) eqn:E; simpl; try reflexivity;
  rewrite !Pos.compare_cont_spec; simpl; rewrite (Pos.compare_antisym ma mb);
  destruct (Pos.compare ma mb); reflexivity.
Qed.

Lemma eqb_sym (x y : float) : (x =? y) = (y =? x).
Proof.
  rewrite !FloatAxioms.eqb_spec. unfold SFeqb. rewrite (SFcompare_antisym (Prim2SF x) (Prim2SF y)).
  destruct (SFcompare _ _) as [[]|]; reflexivity.
Qed.


Import F64Spec.

Lemma SFsim_refl a : SFsim a a.
Proof. now left. Qed.

Lemma SFsim_zero s s' : SFsim (S754_zero s) (S754_zero s').
Proof. right. split; eexists; reflexivity. Qed.

Lemma sim_refl x : sim x x.
Proof. apply SFsim_refl. Qed.

Lemma SFcompare_Eq a b : SFcompare a b = Some Eq -> SFsim a b.
Proof.
  destruct a as [sa|sa| |sa ma ea], b as [sb|sb| |sb mb eb]; simpl; try discriminate;
    try (intros _; apply SFsim_zero);
    try (destruct sa; discriminate); try (destruct sb; discriminate).
  - destruct sa, sb; try discriminate; intros _; apply SFsim_refl.
  - destruct sa, sb; try discriminate;
      destruct (Z.compare ea eb) eqn:E; try discriminate;
      apply Z.compare_eq in E; subst eb;
      rewrite Pos.compare_cont_spec; simpl;
      destruct (Pos.compare ma mb) eqn:E'; try discriminate;
      apply Pos.compare_eq in E'; subst mb; intros _; apply SFsim_refl.
Qed.

Lemma SFcompare_refl a : a <> S754_nan -> SFcompare a a = Some Eq.
Proof.
  destruct a as [s|s| |s m e]; simpl; try congruence; intros _.
  - destruct s; reflexivity.
  - destruct s; rewrite Z.compare_refl, Pos.compare_cont_spec, Pos.compare_refl; reflexivity.
Qed.

Lemma SFcompare_None a b : SFcompare a b = None -> a = S754_nan \/ b = S754_nan.
Proof.
  destruct a as [sa|sa| |sa ma ea], b as [sb|sb| |sb mb eb]; simpl; try discriminate; auto.
Qed.



Lemma SFcompare_nan_r a : SFcompare a S754_nan = None.
Proof.
  destruct a; reflexivity.
Qed.

Lemma is_nan_spec x : is_nan x = true <-> Prim2SF x = S754_nan.
Proof.
  unfold is_nan. rewrite FloatAxioms.eqb_spec. unfold SFeqb. split.
  - intros H. destruct (Prim2SF x) as [s|s| |s m e] eqn:E; try reflexivity;
      rewrite SFcompare_refl in H by discriminate; discriminate.
  - intros ->. reflexivity.
Qed.

Lemma sim_eq x y : Prim2SF x = Prim2SF y -> x = y.
Proof. apply Prim2SF_inj. Qed.


Lemma leb_antisym x y : (x <=? y) = true -> (y <=? x) = true -> sim x y.
Proof.
  rewrite !leb_spec. unfold SFleb.
  rewrite (SFcompare_antisym (Prim2SF x) (Prim2SF y)).
  destruct (SFcompare (Prim2SF x) (Prim2SF y)) as [[]|] eqn:E; simpl; try discriminate.
  intros _ _. now apply SFcompare_Eq.
Qed.

Lemma leb_nan_l x y : is_nan x = true -> (x <=? y) = false.
Proof.
  intros N. apply is_nan_spec in N. rewrite leb_spec. unfold SFleb. now rewrite N.
Qed.

Lemma leb_nan_r x y : is_nan y = true -> (x <=? y) = false.
Proof.
  intros N. apply is_nan_spec in N. rewrite leb_spec. unfold SFleb.
  now rewrite N, SFcompare_nan_r.
Qed.

Lemma leb_total x y :
  (x <=? y) = false -> (y <=? x) = false -> is_nan x = true \/ is_nan y = true.
Proof.
  rewrite !leb_spec. unfold SFleb.
  rewrite (SFcompare_antisym (Prim2SF x) (Prim2SF y)).
  destruct (SFcompare (Prim2SF x) (Prim2SF y)) as [[]|] eqn:E; simpl; try discriminate.
  intros _ _. apply SFcompare_None in E. rewrite !is_nan_spec. exact E.
Qed.

(** Keeping the first operand when it compares well or is NaN commutes, up to
    the sign of zero: the shape of [np.minimum] and [np.maximum]. *)
Lemma pick_sim (x y : float) (lxy lyx : bool) :
  (lxy = true -> lyx = true -> sim x y) ->
  (is_nan x = true -> lxy = false /\ lyx = false) ->
  (is_nan y = true -> lxy = false /\ lyx = false) ->
  (lxy = false -> lyx = false -> is_nan x = true \/ is_nan y = true) ->
  sim (if lxy || is_nan x then x else y) (if lyx || is_nan y then y else x).
Proof.
  intros Hanti Hnx Hny Htot.
  destruct (is_nan x) eqn:Nx, (is_nan y) eqn:Ny.
  - rewrite !orb_true_r. left. apply is_nan_spec in Nx, Ny. congruence.
  - destruct (Hnx eq_refl) as [-> ->]. simpl. apply sim_refl.
  - destruct (Hny eq_refl) as [-> ->]. simpl. apply sim_refl.
  - rewrite !orb_false_r. destruct lxy, lyx.
    + now apply Hanti.
    + apply sim_refl.
    + apply sim_refl.
    + destruct (Htot eq_refl eq_refl); discriminate.
Qed.

Lemma fmin_sim x y : sim (Numpy.fmin x y) (Numpy.fmin y x).
Proof.
  unfold Numpy.fmin. apply pick_sim.
  - apply leb_antisym.
  - intros N. split; [now apply leb_nan_l | now apply leb_nan_r].
  - intros N. split; [now apply leb_nan_r | now apply leb_nan_l].
  - apply leb_total.
Qed.

Lemma fmax_sim x y : sim (Numpy.fmax x y) (Numpy.fmax y x).
Proof.
  unfold Numpy.fmax. apply pick_sim.
  - intros H1 H2. now apply leb_antisym.
  - intros N. split; [now apply leb_nan_r | now apply leb_nan_l].
  - intros N. split; [now apply leb_nan_l | now apply leb_nan_r].
  - intros H1 H2. now apply leb_total.
Qed.

(** Addition, division and [1 - x] respect equality up to the sign of zero. *)
Lemma SFadd_sim a a' x x' :
  SFsim a a' -> SFsim x x' -> SFsim (SF64add a x) (SF64add a' x').
Proof.
  intros [-> | [[sa ->] [sa' ->]]] [-> | [[sx ->] [sx' ->]]].
  - apply SFsim_refl.
  - destruct a' as [s|s| |s m e]; simpl; try apply SFsim_refl.
    destruct s, sx, sx'; apply SFsim_zero.
  - destruct x' as [s|s| |s m e]; simpl; try apply SFsim_refl.
    destruct s, sa, sa'; apply SFsim_zero.
  - destruct sa, sa', sx, sx'; apply SFsim_zero.
Qed.

Lemma add_sim a a' x x' : sim a a' -> sim x x' -> sim (a + x) (a' + x').
Proof. unfold sim. rewrite !add_spec. apply SFadd_sim. Qed.

Lemma fold_add_sim (l l' : list float) :
  Forall2 sim l l' -> forall a a', sim a a' ->
  sim (fold_left PrimFloat.add l a) (fold_left PrimFloat.add l' a').
Proof.
  induction 1 as [|x x' l l' Hx Hl IH]; intros a a' Ha; simpl.
  - exact Ha.
  - apply IH. now apply add_sim.
Qed.

Lemma sum_sim (l l' : list float) : Forall2 sim l l' -> sim (Numpy.sum l) (Numpy.sum l').
Proof. intros H. unfold Numpy.sum. apply fold_add_sim; [exact H | apply sim_refl]. Qed.

Lemma Prim2SF_zero : Prim2SF 0 = S754_zero false.
Proof. reflexivity. Qed.

Lemma eqb_zero_spec x : (x =? 0) = true <-> SFis_zero (Prim2SF x).
Proof.
  rewrite FloatAxioms.eqb_spec, Prim2SF_zero. unfold SFeqb. split.
  - destruct (Prim2SF x) as [s|s| |s m e]; simpl; try discriminate.
    + intros _. now exists s.
    + destruct s; discriminate.
    + destruct s; discriminate.
  - intros [s ->]. reflexivity.
Qed.

Lemma sim_eqb_zero x y : sim x y -> (x =? 0) = (y =? 0).
Proof.
  intros [H | [Hx Hy]].
  - now rewrite (sim_eq x y H).
  - apply eqb_zero_spec in Hx, Hy. congruence.
Qed.

Lemma sim_nonzero x y : sim x y -> (x =? 0) = false -> x = y.
Proof.
  intros [H | [Hx Hy]] Hnz.
  - now apply sim_eq.
  - apply eqb_zero_spec in Hx. congruence.
Qed.

Lemma div_sim i i' u : sim i i' -> sim (i / u) (i' / u).
Proof.
  unfold sim. rewrite !div_spec.
  intros [-> | [[s ->] [s' ->]]]; [apply SFsim_refl|].
  destruct (Prim2SF u) as [su|su| |su mu eu]; simpl;
    try apply SFsim_refl; apply SFsim_zero.
Qed.

Lemma Prim2SF_one : Prim2SF 1 = S754_finite false 4503599627370496 (-52).
Proof. reflexivity. Qed.

Lemma one_sub_sim q q' : sim q q' -> 1 - q = 1 - q'.
Proof.
  intros H. apply sim_eq. rewrite !sub_spec, Prim2SF_one.
  destruct H as [-> | [[s ->] [s' ->]]]; reflexivity.
Qed.

(** Sums and norms of vectors of zeros. *)
Lemma mul_zero x y :
  SFis_zero (Prim2SF x) -> SFis_zero (Prim2SF y) -> SFis_zero (Prim2SF (x * y)).
Proof.
  intros [s Hx] [s' Hy]. rewrite mul_spec, Hx, Hy. simpl. now eexists.
Qed.

Lemma add_zero x y :
  SFis_zero (Prim2SF x) -> SFis_zero (Prim2SF y) -> SFis_zero (Prim2SF (x + y)).
Proof.
  intros [s Hx] [s' Hy]. rewrite add_spec, Hx, Hy. destruct s, s'; simpl; now eexists.
Qed.

Lemma sqrt_zero x : SFis_zero (Prim2SF x) -> SFis_zero (Prim2SF (sqrt x)).
Proof.
  intros [s Hx]. rewrite sqrt_spec, Hx. simpl. now eexists.
Qed.

Lemma fold_add_zero (l : list float) :
  Forall (fun x => SFis_zero (Prim2SF x)) l ->
  forall a, SFis_zero (Prim2SF a) -> SFis_zero (Prim2SF (fold_left PrimFloat.add l a)).
Proof.
  induction 1 as [|x l Hx Hl IH]; intros a Ha; simpl.
  - exact Ha.
  - apply IH. now apply add_zero.
Qed.

End F64.

(** ** The validation of [calculate] and [batch_calculate] *)

Lemma is_supported_In (t : string) : is_supported t = true <-> In t supported_types.
Proof.
  unfold is_supported. rewrite existsb_exists. split.
  - intros [x [Hin Heq]]. apply String.eqb_eq in Heq. now subst.
  - intros Hin. exists t. split; [assumption | apply String.eqb_refl].
Qed.

Lemma is_supported_not_In (t : string) : is_supported t = false <-> ~ In t supported_types.
Proof.
  rewrite <- is_supported_In. destruct (is_supported t); split; congruence.
Qed.

(** C6: with a supported metric and two vectors of different lengths
    [calculate] raises the DimensionMismatch error; with an unsupported metric
    it raises the InvalidMetric error, whatever the vectors are. *)
Theorem calculate_rejects (a b : list float) (t : string) (w : World) :
  (In t supported_types -> List.length a <> List.length b ->
     exists e, calculate a b t w = (Raise e, w) /\ DimensionMismatch e) /\
  (~ In t supported_types ->
     exists e, calculate a b t w = (Raise e, w) /\ InvalidMetric e).
Proof.
  unfold calculate. split.
  - intros Hin Hlen. apply is_supported_In in Hin. rewrite Hin. cbn [negb].
    apply Nat.eqb_neq in Hlen. rewrite Hlen. cbn [negb].
    eexists. split; [reflexivity | reflexivity].
  - intros Hout. apply is_supported_not_In in Hout. rewrite Hout. cbn [negb].
    eexists. split; [reflexivity | now exists t].
Qed.

Lemma calculate_rejects_witness :
  (exists e, calculate [1; 2]%float [1; 2; 3]%float "euclidean" quiet_world
             = (Raise e, quiet_world) /\ DimensionMismatch e) /\
  (exists e, calculate [1; 2]%float [1; 2]%float "chebyshev" quiet_world
             = (Raise e, quiet_world) /\ InvalidMetric e).
Proof.
  split.
  - apply (calculate_rejects [1; 2]%float [1; 2; 3]%float "euclidean" quiet_world).
    + simpl. tauto.
    + simpl. lia.
  - apply (calculate_rejects [1; 2]%float [1; 2]%float "chebyshev" quiet_world).
    simpl. intros H. repeat (destruct H as [H | H]; [discriminate H |]). exact H.
Defined.

(** C7: on fewer than two points [batch_calculate] raises the
    InsufficientPoints error and returns nothing, whatever the metric. *)
Theorem batch_rejects_few_points (points : list (list float)) (t : string) (w : World) :
  (List.length points < 2)%nat ->
  exists e, batch_calculate points t w = (Raise e, w) /\ InsufficientPoints e.
Proof.
  intros Hlen. unfold batch_calculate.
  apply Nat.ltb_lt in Hlen. rewrite Hlen.
  eexists. split; reflexivity.
Qed.

Lemma batch_rejects_few_points_witness :
  exists e, batch_calculate [[1; 2]%float] "euclidean" quiet_world = (Raise e, quiet_world)
            /\ InsufficientPoints e.
Proof.
  apply (batch_rejects_few_points [[1; 2]%float] "euclidean" quiet_world).
  simpl. lia.
Defined.

(** ** Every metric is symmetric in its two points *)

Section MetricSymmetry.

Import Numpy.
Local Open Scope float_scope.

Lemma zip_with_sym {A B} (f g : A -> A -> B) (a b : list A) :
  (forall x y, f x y = g y x) -> zip_with f a b = zip_with g b a.
Proof.
  intros Hfg. revert b. induction a as [|x a IH]; intros [|y b]; simpl; try reflexivity.
  now rewrite Hfg, IH.
Qed.

Lemma zip_with_Forall2 {A B} (R : B -> B -> Prop) (f g : A -> A -> B) (a b : list A) :
  (forall x y, R (f x y) (g y x)) -> Forall2 R (zip_with f a b) (zip_with g b a).
Proof.
  intros Hfg. revert b. induction a as [|x a IH]; intros [|y b]; simpl; constructor; auto.
Qed.

Lemma zip_with_diag {A B C} (f : A -> A -> B) (g : B -> B -> C) (a b : list A) :
  zip_with g (zip_with f a b) (zip_with f a b) = zip_with (fun x y => g (f x y) (f x y)) a b.
Proof.
  revert b. induction a as [|x a IH]; intros [|y b]; simpl; try reflexivity.
  now rewrite IH.
Qed.

Lemma map_zip_with {A B C} (f : A -> A -> B) (g : B -> C) (a b : list A) :
  map g (zip_with f a b) = zip_with (fun x y => g (f x y)) a b.
Proof.
  revert b. induction a as [|x a IH]; intros [|y b]; simpl; try reflexivity.
  now rewrite IH.
Qed.

Lemma dot_comm (a b : ndarray) : dot a b = dot b a.
Proof. unfold dot. f_equal. apply zip_with_sym. apply F64.mul_comm. Qed.

Lemma euclidean_sym (a b : ndarray) : _euclidean_distance a b = _euclidean_distance b a.
Proof.
  unfold _euclidean_distance, linalg_norm, dot, subtract.
  rewrite !zip_with_diag. do 3 f_equal.
  apply zip_with_sym. intros x y. apply F64.sqr_sub_sym.
Qed.

Lemma manhattan_sym (a b : ndarray) : _manhattan_distance a b = _manhattan_distance b a.
Proof.
  unfold _manhattan_distance, absolute, subtract.
  rewrite !map_zip_with. do 2 f_equal.
  apply zip_with_sym. intros x y. apply F64.abs_sub_sym.
Qed.

Lemma cosine_sym (a b : ndarray) : _cosine_distance a b = _cosine_distance b a.
Proof.
  unfold _cosine_distance. cbv zeta.
  rewrite (orb_comm (linalg_norm a =? 0)), (dot_comm a b),
    (F64.mul_comm (linalg_norm a) (linalg_norm b)).
  reflexivity.
Qed.

Lemma hamming_sym (a b : ndarray) : _hamming_distance a b = _hamming_distance b a.
Proof.
  unfold _hamming_distance, not_equal. do 2 f_equal.
  apply zip_with_sym. intros x y. now rewrite F64.eqb_sym.
Qed.

Lemma jaccard_sym (a b : ndarray) : _jaccard_distance a b = _jaccard_distance b a.
Proof.
  unfold _jaccard_distance. cbv zeta.
  assert (Hi : F64Spec.sim (sum (minimum a b)) (sum (minimum b a))).
  { apply F64.sum_sim. unfold minimum. apply zip_with_Forall2. apply F64.fmin_sim. }
  assert (Hu : F64Spec.sim (sum (maximum a b)) (sum (maximum b a))).
  { apply F64.sum_sim. unfold maximum. apply zip_with_Forall2. apply F64.fmax_sim. }
  rewrite <- (F64.sim_eqb_zero _ _ Hu).
  destruct (sum (maximum a b) =? 0) eqn:E; [reflexivity|].
  rewrite <- (F64.sim_nonzero _ _ Hu E).
  f_equal. apply F64.one_sub_sim. now apply F64.div_sim.
Qed.

Lemma metric_sym (t : string) (a b : list float) : metric t a b = metric t b a.
Proof.
  unfold metric, dispatch, array.
  repeat match goal with |- context [if ?c then _ else _] => destruct c end;
    try reflexivity; f_equal.
  - apply euclidean_sym.
  - apply manhattan_sym.
  - apply cosine_sym.
  - apply hamming_sym.
  - apply jaccard_sym.
Qed.

End MetricSymmetry.

(** ** The loops of [batch_calculate] in closed form *)

Section BatchLoops.

Local Open Scope float_scope.

Lemma for_each_pure {A S : Type} (xs : list A) (body : A -> S -> M S)
    (f : A -> S -> S) (g : A -> World -> World) :
  (forall x s w, In x xs -> body x s w = (Ok (f x s), g x w)) ->
  forall s w, for_each xs body s w
              = (Ok (fold_left (fun s x => f x s) xs s), fold_left (fun w x => g x w) xs w).
Proof.
  induction xs as [|x xs IH]; intros Hbody s w; simpl.
  - reflexivity.
  - unfold bind. rewrite (Hbody x s w (or_introl eq_refl)).
    apply IH. intros y s' w' Hy. apply Hbody. now right.
Qed.

Lemma dispatch_supported (t : string) (a b : list float) :
  In t supported_types -> exists d, dispatch t a b = Some d.
Proof.
  intros Hin. simpl in Hin.
  repeat (destruct Hin as [<- | Hin]; [eexists; reflexivity|]).
  destruct Hin.
Qed.

Lemma calculate_ok (a b : list float) (t : string) (w : World) :
  In t supported_types -> List.length a = List.length b ->
  calculate a b t w
  = (Ok (mkPairwiseResult (metric t a b) t a b (List.length a)
           (mkMetadata (clock w (clock_reads w)) (uuid4 w (uuid_draws w)))),
     tick w).
Proof.
  intros Hin Hlen. unfold calculate, metric.
  apply is_supported_In in Hin as Hs. rewrite Hs. cbn [negb].
  apply Nat.eqb_eq in Hlen. rewrite Hlen. cbn [negb].
  destruct (dispatch_supported t a b Hin) as [d Hd]. unfold Numpy.array. rewrite Hd.
  reflexivity.
Qed.

Lemma getitem_nth {A} (xs : list A) (i : nat) (d : A) (w : World) :
  (i < List.length xs)%nat -> getitem xs i w = (Ok (nth i xs d), w).
Proof.
  intros Hi. unfold getitem.
  destruct (nth_error xs i) as [x|] eqn:E.
  - now rewrite (nth_error_nth xs i d E).
  - apply nth_error_None in E. lia.
Qed.

Variable points : list (list float).
Variable t : string.
Hypothesis Hsupported : In t supported_types.
Hypothesis Hdims : same_dimensionality points.

Let n := List.length points.

Lemma inner_body_ok (i j : nat) (st : list float * list CalculationPair) (w : World) :
  (i < n)%nat -> (j < n)%nat ->
  inner_body points t i j st w
  = (Ok (fst st ++ [batch_entry points t i j],
         snd st ++ row_pairs points t i [j]),
     if (i =? j)%nat then w else tick w).
Proof.
  intros Hi Hj. destruct st as [row pairs]. unfold inner_body, row_pairs, batch_entry.
  cbn [fst snd flat_map]. rewrite app_nil_r.
  destruct (i =? j)%nat eqn:E.
  - apply Nat.eqb_eq in E. subst j. rewrite Nat.ltb_irrefl, app_nil_r. reflexivity.
  - unfold bind.
    rewrite (getitem_nth points i [] w Hi), (getitem_nth points j [] w Hj).
    rewrite calculate_ok; [|exact Hsupported|apply Hdims; apply nth_In; assumption].
    cbn [distance]. unfold ret. destruct (i <? j)%nat; [|rewrite app_nil_r]; reflexivity.
Qed.

Lemma inner_fold (i : nat) (js : list nat) (row : list float) (pairs : list CalculationPair) :
  fold_left (fun st j => (fst st ++ [batch_entry points t i j],
                          snd st ++ row_pairs points t i [j])) js (row, pairs)
  = (row ++ map (batch_entry points t i) js, pairs ++ row_pairs points t i js).
Proof.
  revert row pairs. induction js as [|j js IH]; intros row pairs.
  - simpl. now rewrite !app_nil_r.
  - cbn [fold_left fst snd]. rewrite IH. unfold row_pairs. cbn [map flat_map].
    rewrite app_nil_r, <- !app_assoc. reflexivity.
Qed.

Lemma outer_body_ok (i : nat) (st : list (list float) * list CalculationPair) (w : World) :
  (i < n)%nat ->
  outer_body points t i st w
  = (Ok (fst st ++ [map (batch_entry points t i) (seq 0 n)],
         snd st ++ row_pairs points t i (seq 0 n)),
     fold_left (fun w j => if (i =? j)%nat then w else tick w) (seq 0 n) w).
Proof.
  intros Hi. destruct st as [m pairs]. unfold outer_body. unfold bind.
  fold n.
  rewrite (for_each_pure (seq 0 n) (inner_body points t i)
             (fun j st => (fst st ++ [batch_entry points t i j],
                           snd st ++ row_pairs points t i [j]))
             (fun j w => if (i =? j)%nat then w else tick w)).
  - rewrite inner_fold. reflexivity.
  - intros j st w' Hj. apply in_seq in Hj. apply inner_body_ok; [assumption | lia].
Qed.

Lemma outer_fold (rows : list nat) (m : list (list float)) (pairs : list CalculationPair) :
  fold_left (fun st i => (fst st ++ [map (batch_entry points t i) (seq 0 n)],
                          snd st ++ row_pairs points t i (seq 0 n))) rows (m, pairs)
  = (m ++ map (fun i => map (batch_entry points t i) (seq 0 n)) rows,
     pairs ++ flat_map (fun i => row_pairs points t i (seq 0 n)) rows).
Proof.
  revert m pairs. induction rows as [|i rows IH]; intros m pairs.
  - simpl. now rewrite !app_nil_r.
  - cbn [fold_left fst snd]. rewrite IH. cbn [map flat_map].
    rewrite <- !app_assoc. reflexivity.
Qed.

(** A batch of at least two points of one dimensionality succeeds, and its
    matrix and pair list are the comprehensions of the two loops. *)
Lemma batch_calculate_ok (w : World) :
  (2 <= n)%nat ->
  exists r w',
    batch_calculate points t w = (Ok r, w') /\
    distance_matrix r = map (fun i => map (batch_entry points t i) (seq 0 n)) (seq 0 n) /\
    calculation_pairs r = flat_map (fun i => row_pairs points t i (seq 0 n)) (seq 0 n).
Proof.
  intros Hn. unfold batch_calculate. fold n.
  assert (Hlt : (n <? 2)%nat = false) by (apply Nat.ltb_ge; exact Hn).
  rewrite Hlt. unfold bind.
  rewrite (for_each_pure (seq 0 n) (outer_body points t)
             (fun i st => (fst st ++ [map (batch_entry points t i) (seq 0 n)],
                           snd st ++ row_pairs points t i (seq 0 n)))
             (fun i w => fold_left (fun w j => if (i =? j)%nat then w else tick w) (seq 0 n) w)).
  - rewrite outer_fold. cbn [app fst snd].
    unfold _get_timestamp, _generate_calculation_id, ret.
    eexists. eexists. split; [reflexivity|]. split; reflexivity.
  - intros i st w' Hi. apply in_seq in Hi. apply outer_body_ok. lia.
Qed.

End BatchLoops.

(** ** The distance matrix and the pair list of a batch *)

Section BatchResult.

Local Open Scope nat_scope.

Lemma nth_error_seq0 (n i : nat) : i < n -> nth_error (seq 0 n) i = Some i.
Proof.
  intros Hi. rewrite (nth_error_nth' (seq 0 n) 0) by (rewrite length_seq; exact Hi).
  now rewrite seq_nth.
Qed.

Lemma matrix_entry_table (e : nat -> nat -> float) (n i j : nat) :
  i < n -> j < n ->
  matrix_entry (map (fun i => map (e i) (seq 0 n)) (seq 0 n)) i j = Some (e i j).
Proof.
  intros Hi Hj. unfold matrix_entry.
  rewrite nth_error_map, (nth_error_seq0 n i Hi). cbn [option_map].
  rewrite nth_error_map, (nth_error_seq0 n j Hj). reflexivity.
Qed.

Lemma batch_entry_sym (points : list (list float)) (t : string) (i j : nat) :
  batch_entry points t i j = batch_entry points t j i.
Proof.
  unfold batch_entry. rewrite (Nat.eqb_sym j i).
  destruct (i =? j); [reflexivity | apply metric_sym].
Qed.

Lemma batch_entry_diag (points : list (list float)) (t : string) (i : nat) :
  batch_entry points t i i = 0%float.
Proof. unfold batch_entry. now rewrite Nat.eqb_refl. Qed.

(** C1: a batch of at least two points of one dimensionality, under a
    supported metric, succeeds, and in the matrix it returns the entry (i, j)
    is the entry (j, i) for all indices, every diagonal entry being 0.0. *)
Theorem batch_matrix_symmetric (points : list (list float)) (t : string) (w : World) :
  2 <= List.length points ->
  same_dimensionality points ->
  In t supported_types ->
  exists r w',
    batch_calculate points t w = (Ok r, w') /\
    forall i j, i < List.length points -> j < List.length points ->
      exists d,
        matrix_entry (distance_matrix r) i j = Some d /\
        matrix_entry (distance_matrix r) j i = Some d /\
        matrix_entry (distance_matrix r) i i = Some 0%float.
Proof.
  intros Hn Hdims Ht.
  destruct (batch_calculate_ok points t Ht Hdims w Hn) as (r & w' & Hrun & Hm & _).
  exists r, w'. split; [exact Hrun|].
  intros i j Hi Hj. exists (batch_entry points t i j). rewrite Hm.
  rewrite !matrix_entry_table by assumption.
  rewrite (batch_entry_sym points t j i), batch_entry_diag. auto.
Qed.

Lemma flat_map_none {A B} (f : A -> list B) (l : list A) :
  (forall x, In x l -> f x = []) -> flat_map f l = [].
Proof.
  induction l as [|x l IH]; intros H; simpl; [reflexivity|].
  rewrite (H x (or_introl eq_refl)). apply IH. intros y Hy. apply H. now right.
Qed.

(** A comprehension that keeps one element of a duplicate-free list. *)
Lemma flat_map_pick {B} (l : list nat) (k : nat) (c : nat -> bool) (x : nat -> B) :
  NoDup l -> In k l ->
  (forall k', In k' l -> c k' = true <-> k' = k) ->
  flat_map (fun k' => if c k' then [x k'] else []) l = [x k].
Proof.
  induction 1 as [|a l Ha Hl IH]; intros Hin Hc; [destruct Hin|].
  cbn [flat_map]. destruct Hin as [-> | Hin].
  - rewrite (proj2 (Hc k (or_introl eq_refl)) eq_refl).
    rewrite flat_map_none; [reflexivity|].
    intros y Hy. destruct (c y) eqn:E; [|reflexivity].
    apply (Hc y (or_intror Hy)) in E. subst y. contradiction.
  - destruct (c a) eqn:E.
    + apply (Hc a (or_introl eq_refl)) in E. subst a. contradiction.
    + apply IH; [exact Hin|]. intros k' Hk'. apply Hc. now right.
Qed.

Lemma filter_flat_map {A B} (q : B -> bool) (f : A -> list B) (l : list A) :
  filter q (flat_map f l) = flat_map (fun x => filter q (f x)) l.
Proof.
  induction l as [|x l IH]; simpl; [reflexivity|].
  now rewrite filter_app, IH.
Qed.

Lemma filter_row_pairs (points : list (list float)) (t : string) (n i j i' : nat) :
  i < j -> j < n ->
  filter (has_indices i j) (row_pairs points t i' (seq 0 n))
  = if i' =? i then [mkPair (i, j) (batch_entry points t i j)] else [].
Proof.
  intros Hij Hj. unfold row_pairs. rewrite filter_flat_map.
  destruct (i' =? i) eqn:E.
  - apply Nat.eqb_eq in E. subst i'.
    rewrite (flat_map_ext _
               (fun j' => if j' =? j then [mkPair (i, j') (batch_entry points t i j')] else [])).
    + apply (flat_map_pick (seq 0 n) j (fun j' => j' =? j)
               (fun j' => mkPair (i, j') (batch_entry points t i j'))).
      * apply seq_NoDup.
      * apply in_seq. lia.
      * intros k' _. apply Nat.eqb_eq.
    + intros j'. destruct (i <? j') eqn:L; unfold has_indices; simpl.
      * rewrite Nat.eqb_refl. simpl. destruct (j' =? j); reflexivity.
      * destruct (j' =? j) eqn:E; [|reflexivity].
        apply Nat.eqb_eq in E. subst j'. apply Nat.ltb_ge in L. lia.
  - apply flat_map_none. intros j' _.
    destruct (i' <? j'); unfold has_indices; simpl; [|reflexivity].
    now rewrite E.
Qed.

Lemma row_pairs_above (points : list (list float)) (t : string) (i : nat) (js : list nat) :
  (forall j, In j js -> i < j) ->
  row_pairs points t i js = map (fun j => mkPair (i, j) (batch_entry points t i j)) js.
Proof.
  induction js as [|j js IH]; intros H; [reflexivity|].
  unfold row_pairs in *. cbn [flat_map map].
  assert (L : (i <? j) = true) by (apply Nat.ltb_lt, H; now left).
  rewrite L, IH; [reflexivity|]. intros j' Hj'. apply H. now right.
Qed.

Lemma row_pairs_below (points : list (list float)) (t : string) (i : nat) (js : list nat) :
  (forall j, In j js -> j <= i) -> row_pairs points t i js = [].
Proof.
  intros H. apply flat_map_none. intros j Hj.
  assert (L : (i <? j) = false) by (apply Nat.ltb_ge, H, Hj). now rewrite L.
Qed.

Lemma row_pairs_app (points : list (list float)) (t : string) (i : nat) (js js' : list nat) :
  row_pairs points t i (js ++ js') = row_pairs points t i js ++ row_pairs points t i js'.
Proof. apply flat_map_app. Qed.

Lemma length_row_pairs (points : list (list float)) (t : string) (n i : nat) :
  i < n -> List.length (row_pairs points t i (seq 0 n)) = n - S i.
Proof.
  intros Hi. replace n with (S i + (n - S i)) at 1 by lia.
  rewrite seq_app, row_pairs_app.
  rewrite row_pairs_below by (intros j Hj; apply in_seq in Hj; lia).
  rewrite row_pairs_above by (intros j Hj; apply in_seq in Hj; lia).
  cbn [app Nat.add]. now rewrite length_map, length_seq.
Qed.

(** The rows [0 .. k-1] hold [n-1 + n-2 + ... + n-k] pairs. *)
Lemma length_pairs_upto (points : list (list float)) (t : string) (n k : nat) :
  k <= n ->
  2 * List.length (flat_map (fun i => row_pairs points t i (seq 0 n)) (seq 0 k)) + k * (k + 1)
  = 2 * n * k.
Proof.
  induction k as [|k IH]; intros Hk; [simpl; lia|].
  rewrite seq_S, flat_map_app, length_app. cbn [flat_map Nat.add].
  rewrite app_nil_r, length_row_pairs by lia.
  specialize (IH ltac:(lia)). nia.
Qed.

(** C8: a valid batch of N points returns a pair list that holds, for each
    i < j < N, exactly one entry with the indices (i, j); it has N(N-1)/2
    entries, and the distance of each entry is the matrix entry at its
    indices. *)
Theorem batch_pairs_once (points : list (list float)) (t : string) (w : World) :
  2 <= List.length points ->
  same_dimensionality points ->
  In t supported_types ->
  exists r w',
    batch_calculate points t w = (Ok r, w') /\
    List.length (calculation_pairs r)
      = List.length points * (List.length points - 1) / 2 /\
    (forall i j, i < j -> j < List.length points ->
       List.length (filter (has_indices i j) (calculation_pairs r)) = 1) /\
    (forall p, In p (calculation_pairs r) ->
       fst (point_indices p) < snd (point_indices p) /\
       snd (point_indices p) < List.length points /\
       matrix_entry (distance_matrix r) (fst (point_indices p)) (snd (point_indices p))
       = Some (pair_distance p)).
Proof.
  intros Hn Hdims Ht.
  destruct (batch_calculate_ok points t Ht Hdims w Hn) as (r & w' & Hrun & Hm & Hp).
  exists r, w'. split; [exact Hrun|]. rewrite Hm, Hp.
  set (n := List.length points) in *. split; [|split].
  - pose proof (length_pairs_upto points t n n (le_n n)) as H.
    apply Nat.div_unique_exact; [lia|].
    destruct n as [|n']; [lia|]. replace (S n' - 1) with n' by lia. nia.
  - intros i j Hij Hj. rewrite filter_flat_map.
    rewrite (flat_map_ext _
               (fun i' => if i' =? i then [mkPair (i, j) (batch_entry points t i j)] else []))
      by (intros i'; now apply filter_row_pairs).
    rewrite (flat_map_pick (seq 0 n) i (fun i' => i' =? i)
               (fun _ => mkPair (i, j) (batch_entry points t i j))).
    + reflexivity.
    + apply seq_NoDup.
    + apply in_seq. lia.
    + intros k' _. apply Nat.eqb_eq.
  - intros p Hin. apply in_flat_map in Hin. destruct Hin as (i & Hi & Hin).
    unfold row_pairs in Hin. apply in_flat_map in Hin. destruct Hin as (j & Hj & Hin).
    apply in_seq in Hi, Hj. destruct (i <? j) eqn:L; [|destruct Hin].
    apply Nat.ltb_lt in L. destruct Hin as [<- | []]. cbn [point_indices pair_distance fst snd].
    split; [exact L|]. split; [lia|].
    apply matrix_entry_table; lia.
Qed.

End BatchResult.

Lemma batch_matrix_symmetric_witness :
  exists r w',
    batch_calculate [[0; 0]; [3; 4]]%float "euclidean" quiet_world = (Ok r, w') /\
    forall i j, (i < 2)%nat -> (j < 2)%nat ->
      exists d,
        matrix_entry (distance_matrix r) i j = Some d /\
        matrix_entry (distance_matrix r) j i = Some d /\
        matrix_entry (distance_matrix r) i i = Some 0%float.
Proof.
  apply (batch_matrix_symmetric [[0; 0]; [3; 4]]%float "euclidean" quiet_world).
  - simpl. lia.
  - intros p q [<- | [<- | []]] [<- | [<- | []]]; reflexivity.
  - simpl. tauto.
Defined.

Lemma batch_pairs_once_witness :
  exists r w',
    batch_calculate [[0; 0]; [3; 4]; [6; 8]]%float "manhattan" quiet_world = (Ok r, w') /\
    List.length (calculation_pairs r) = 3%nat /\
    (forall i j, (i < j)%nat -> (j < 3)%nat ->
       List.length (filter (has_indices i j) (calculation_pairs r)) = 1%nat) /\
    (forall p, In p (calculation_pairs r) ->
       (fst (point_indices p) < snd (point_indices p))%nat /\
       (snd (point_indices p) < 3)%nat /\
       matrix_entry (distance_matrix r) (fst (point_indices p)) (snd (point_indices p))
       = Some (pair_distance p)).
Proof.
  apply (batch_pairs_once [[0; 0]; [3; 4]; [6; 8]]%float "manhattan" quiet_world).
  - simpl. lia.
  - intros p q [<- | [<- | [<- | []]]] [<- | [<- | [<- | []]]]; reflexivity.
  - simpl. tauto.
Defined.

(** The batch of the points (0,0) and (3,4) under the euclidean metric, run. *)
Example batch_run_3_4 :
  exists r w',
    batch_calculate [[0; 0]; [3; 4]]%float "euclidean" quiet_world = (Ok r, w') /\
    distance_matrix r = [[0; 5]; [5; 0]]%float /\
    calculation_pairs r = [mkPair (0, 1)%nat 5%float].
Proof. eexists. eexists. vm_compute. repeat split. Qed.

(** ** The scenarios of the specification, run *)

Example euclidean_0_0_3_4 :
  fst (calculate [0; 0]%float [3; 4]%float "euclidean" quiet_world)
  = Ok (mkPairwiseResult 5%float "euclidean" [0; 0]%float [3; 4]%float 2
          (mkMetadata "" "")).
Proof. vm_compute. reflexivity. Qed.

Example hamming_two_positions :
  metric "hamming" [1; 0; 1; 1]%float [1; 1; 1; 0]%float = 2%float.
Proof. vm_compute. reflexivity. Qed.

Example manhattan_0_0_3_4 :
  metric "manhattan" [0; 0]%float [3; 4]%float = 7%float.
Proof. vm_compute. reflexivity. Qed.

(** ** The cosine and jaccard distances *)

Section CosineJaccard.

Import Numpy.
Local Open Scope float_scope.

(** The cosine distance of (1,1,1) to itself, as [calculate] computes it: the
    norm is the rounded square root of 3, whose square is below 3. *)
Example cosine_ones_run :
  metric "cosine" [1; 1; 1] [1; 1; 1] = (-0x1p-52)%float /\
  linalg_norm [1; 1; 1] = 0x1.bb67ae8584caap+0 /\
  linalg_norm [1; 1; 1] * linalg_norm [1; 1; 1] = 0x1.7ffffffffffffp+1.
Proof. vm_compute. repeat split. Qed.

(** C9 as stated does not hold: the distance [calculate] returns for
    (1,1,1) against itself under the cosine metric does not compare equal to
    0.0. *)
Lemma cosine_ones_not_zero :
  ~ (exists r w',
       calculate [1; 1; 1] [1; 1; 1] "cosine" quiet_world = (Ok r, w') /\
       (distance r =? 0) = true).
Proof.
  intros (r & w' & Hrun & Hd). vm_compute in Hrun.
  injection Hrun as <- _. vm_compute in Hd. discriminate Hd.
Qed.

(** C9, amended: [calculate] on (1,1,1) against itself under the cosine metric
    succeeds and returns the distance -2^-52, one rounding step below zero. *)
Theorem cosine_ones_distance (w : World) :
  exists r,
    calculate [1; 1; 1] [1; 1; 1] "cosine" w = (Ok r, tick w) /\
    distance r = (-0x1p-52)%float /\
    (distance r <? 0) = true /\
    (abs (distance r) <=? 0x1p-52) = true.
Proof.
  eexists. split.
  - apply calculate_ok; [simpl; tauto | reflexivity].
  - cbn [distance]. vm_compute. repeat split.
Qed.

Lemma zip_with_zero (a b : ndarray) :
  Forall (fun x => (x =? 0) = true) a ->
  Forall (fun x => (x =? 0) = true) b ->
  Forall (fun x => F64Spec.SFis_zero (Prim2SF x)) (zip_with PrimFloat.mul a b).
Proof.
  intros Ha. revert b. induction Ha as [|x a Hx Ha IH]; intros b Hb; [constructor|].
  destruct Hb as [|y b Hy Hb]; [constructor|]. cbn [zip_with]. constructor.
  - apply F64.mul_zero; now apply F64.eqb_zero_spec.
  - now apply IH.
Qed.

(** The norm of a vector of zeros (of any signs) compares equal to zero. *)
Lemma norm_zero_vector (a : ndarray) :
  Forall (fun x => (x =? 0) = true) a -> (linalg_norm a =? 0) = true.
Proof.
  intros Ha. apply F64.eqb_zero_spec. unfold linalg_norm, dot, sum.
  apply F64.sqrt_zero, F64.fold_add_zero.
  - now apply zip_with_zero.
  - now exists false.
Qed.

(** C3 as stated does not hold: the cosine distance of (1,1,1) to itself is
    below 0, outside the interval [0, 2]. *)
Lemma cosine_range_counterexample :
  ~ ((0 <=? py_float (_cosine_distance [1; 1; 1] [1; 1; 1])) = true /\
     (py_float (_cosine_distance [1; 1; 1] [1; 1; 1]) <=? 2) = true).
Proof. vm_compute. intros [H _]. discriminate H. Qed.

(** Nor is a zero norm the only way to a distance of 1.0: orthogonal vectors
    have it too. *)
Example cosine_orthogonal :
  py_float (_cosine_distance [1; 0] [0; 1]) = 1 /\
  (linalg_norm [1; 0] =? 0) = false /\ (linalg_norm [0; 1] =? 0) = false.
Proof. vm_compute. repeat split. Qed.

(** Where squares underflow the distance leaves the interval by far more
    than a rounding step, on either side. *)
Example cosine_underflow :
  let c := 0x1p-538 in
  let d := 0x1p-536 in
  let a := [0x1p-537; c; c; c; c; c; c; c; c] in
  (metric "cosine" a [0; d; d; d; d; d; d; d; d] <? -0.25) = true /\
  (2.25 <? metric "cosine" a [0; -d; -d; -d; -d; -d; -d; -d; -d]) = true.
Proof. vm_compute. split; reflexivity. Qed.

(** C3, amended: for vectors of one length [calculate] under the cosine
    metric succeeds; the distance is exactly 1.0 when the norm of either
    vector compares equal to zero, as it does for a vector of zeros, and
    otherwise it is 1 - dot / (norm_a * norm_b) in binary64 arithmetic. *)
Theorem cosine_distance_cases (a b : list float) (w : World) :
  List.length a = List.length b ->
  exists r,
    calculate a b "cosine" w = (Ok r, tick w) /\
    ((linalg_norm a =? 0) = true \/ (linalg_norm b =? 0) = true -> distance r = 1) /\
    (Forall (fun x => (x =? 0) = true) a \/ Forall (fun x => (x =? 0) = true) b ->
       distance r = 1) /\
    ((linalg_norm a =? 0) = false -> (linalg_norm b =? 0) = false ->
       distance r = 1 - dot a b / (linalg_norm a * linalg_norm b)).
Proof.
  intros Hlen. eexists. split.
  - apply calculate_ok; [simpl; tauto | exact Hlen].
  - cbn [distance]. unfold metric. cbn [dispatch String.eqb Ascii.eqb Bool.eqb].
    unfold array, _cosine_distance.
    assert (Hnorm : (linalg_norm a =? 0) = true \/ (linalg_norm b =? 0) = true ->
              py_float (if (linalg_norm a =? 0) || (linalg_norm b =? 0)
                        then Float64 1
                        else Float64 (1 - dot a b / (linalg_norm a * linalg_norm b))) = 1).
    { intros [H | H]; rewrite H; [|rewrite orb_true_r]; reflexivity. }
    split; [exact Hnorm|]. split.
    + intros [H | H]; apply Hnorm; [left | right]; now apply norm_zero_vector.
    + intros Ha Hb. rewrite Ha, Hb. reflexivity.
Qed.

Lemma cosine_distance_cases_witness :
  exists r,
    calculate [0; 0] [3; 4] "cosine" quiet_world = (Ok r, tick quiet_world) /\
    ((linalg_norm [0; 0] =? 0) = true \/ (linalg_norm [3; 4] =? 0) = true -> distance r = 1) /\
    (Forall (fun x => (x =? 0) = true) [0; 0] \/ Forall (fun x => (x =? 0) = true) [3; 4] ->
       distance r = 1) /\
    ((linalg_norm [0; 0] =? 0) = false -> (linalg_norm [3; 4] =? 0) = false ->
       distance r = 1 - dot [0; 0] [3; 4] / (linalg_norm [0; 0] * linalg_norm [3; 4])).
Proof.
  apply (cosine_distance_cases [0; 0] [3; 4] quiet_world). reflexivity.
Defined.

(** C2 as stated does not hold: the jaccard distance of (1) to itself is 0.0
    although the sum of the element-wise maximum is 1. *)
Lemma jaccard_zero_counterexample :
  ~ (py_float (_jaccard_distance [1] [1]) = 0 <-> (sum (maximum [1] [1]) =? 0) = true).
Proof.
  intros [H _]. assert (E : py_float (_jaccard_distance [1] [1]) = 0) by (vm_compute; reflexivity).
  apply H in E. vm_compute in E. discriminate E.
Qed.

(** C2, amended: for vectors of one length [calculate] under the jaccard
    metric succeeds; the distance is exactly 0.0 if the sum of the
    element-wise maximum compares equal to zero, and otherwise it is
    1 - (sum of element-wise minimum / sum of element-wise maximum). *)
Theorem jaccard_distance_cases (a b : list float) (w : World) :
  List.length a = List.length b ->
  exists r,
    calculate a b "jaccard" w = (Ok r, tick w) /\
    ((sum (maximum a b) =? 0) = true -> distance r = 0) /\
    ((sum (maximum a b) =? 0) = false ->
       distance r = 1 - sum (minimum a b) / sum (maximum a b)).
Proof.
  intros Hlen. eexists. split.
  - apply calculate_ok; [simpl; tauto | exact Hlen].
  - cbn [distance]. unfold metric. cbn [dispatch String.eqb Ascii.eqb Bool.eqb].
    unfold array, _jaccard_distance.
    split; intros H; rewrite H; reflexivity.
Qed.

Lemma jaccard_distance_cases_witness :
  exists r,
    calculate [1; 2] [2; 1] "jaccard" quiet_world = (Ok r, tick quiet_world) /\
    ((sum (maximum [1; 2] [2; 1]) =? 0) = true -> distance r = 0) /\
    ((sum (maximum [1; 2] [2; 1]) =? 0) = false ->
       distance r = 1 - sum (minimum [1; 2] [2; 1]) / sum (maximum [1; 2] [2; 1])).
Proof.
  apply (jaccard_distance_cases [1; 2] [2; 1] quiet_world). reflexivity.
Defined.

(** The jaccard distance of (1,2) and (2,1), and of two vectors of zeros. *)
Example jaccard_runs :
  metric "jaccard" [1; 2] [2; 1] = 0.5 /\ metric "jaccard" [0; 0] [0; 0] = 0.
Proof. vm_compute. split; reflexivity. Qed.

End CosineJaccard.

(** ** The calculate-distance route *)

Section Route.

Import Py App.

Lemma missing_or_empty_falsy (items : list (string * value)) (key : string) :
  missing_or_empty items key -> truthy (get items key VNone) = false.
Proof. unfold get. intros [H | H]; rewrite H; reflexivity. Qed.

(** C10: the handler of POST /api/calculate-distance answers 400 with the
    error 'Both points are required' whenever point_a or point_b is absent
    from the body or is the empty list, the other field being anything. *)
Theorem calculate_distance_needs_points (items : list (string * value)) (w : World) :
  missing_or_empty items "point_a" \/ missing_or_empty items "point_b" ->
  calculate_distance (VDict items) w
  = Some (mkResponse 400 (VDict [("error", VStr "Both points are required")]), w).
Proof.
  intros H. unfold calculate_distance.
  destruct H as [H | H]; apply missing_or_empty_falsy in H; rewrite H; cbn [negb orb].
  - reflexivity.
  - rewrite orb_true_r. reflexivity.
Qed.

Lemma calculate_distance_needs_points_witness :
  calculate_distance
    (VDict [("point_a", VList [VInt 1; VInt 2]); ("point_b", VList [])]) quiet_world
  = Some (mkResponse 400 (VDict [("error", VStr "Both points are required")]), quiet_world).
Proof.
  apply (calculate_distance_needs_points
           [("point_a", VList [VInt 1; VInt 2]); ("point_b", VList [])] quiet_world).
  right. right. reflexivity.
Defined.

(** A body with both points is answered with the result. *)
Example calculate_distance_3_4 :
  calculate_distance
    (VDict [("point_a", VList [VInt 0; VInt 0]); ("point_b", VList [VInt 3; VInt 4])])
    quiet_world
  = Some (mkResponse 200
            (VDict [("distance", VFloat 5);
                    ("calculation_type", VStr "euclidean");
                    ("point_a", VList [VInt 0; VInt 0]);
                    ("point_b", VList [VInt 3; VInt 4]);
                    ("dimensionality", VInt 2);
                    ("metadata", VDict [("timestamp", VStr "");
                                        ("calculation_id", VStr "")])]),
          tick quiet_world).
Proof. vm_compute. reflexivity. Qed.

End Route.

(** ** The csv export *)

Section CsvExport.

Import Py ResultsExporter.
Local Open Scope string_scope.

Variable float_repr : float -> string.
Variable str_repr : string -> string.

Let writerow := Csv.writerow float_repr str_repr.
Let text := csv_text float_repr str_repr.

Lemma append_assoc (a b c : string) : (a ++ b) ++ c = a ++ (b ++ c).
Proof. induction a as [|x a IH]; simpl; [reflexivity | now rewrite IH]. Qed.

Lemma append_nil_r (a : string) : a ++ "" = a.
Proof. induction a as [|x a IH]; simpl; [reflexivity | now rewrite IH]. Qed.

Lemma dict_has_get (items : list (string * value)) (key : string) (v : value) :
  dict_get items key = Some v -> dict_has items key = true.
Proof. unfold dict_has. now intros ->. Qed.

Lemma dict_has_none (items : list (string * value)) (key : string) :
  dict_get items key = None -> dict_has items key = false.
Proof. unfold dict_has. now intros ->. Qed.

(** The loop over the rows of the matrix. *)
Lemma matrix_rows_loop (rows : list (list value)) (start : nat) (out : string) (w : World) :
  for_each (combine (seq start (List.length rows)) (map VList rows))
    (fun ir output =>
       match snd ir with
       | VList row => ret (writerow output (label (fst ir) :: row))
       | _ => raise TypeError
       end) out w
  = (Ok (out ++ text (map matrix_row (combine (seq start (List.length rows)) rows))), w).
Proof.
  revert start out. induction rows as [|row rows IH]; intros start out.
  - simpl. unfold ret. now rewrite append_nil_r.
  - cbn [List.length seq map combine for_each]. unfold bind at 1. cbn [snd fst ret].
    rewrite IH. unfold writerow, Csv.writerow, text. cbn [csv_text fold_right].
    fold (csv_text float_repr str_repr). now rewrite append_assoc.
Qed.

(** The loop over the calculation pairs. *)
Lemma pairs_loop (pairs : list value) (triples : list (value * value * value))
    (out : string) (w : World) :
  Forall2 pair_fields pairs triples ->
  for_each pairs
    (fun pair output =>
       indices <- subscript_key pair "point_indices" ;;
       index_a <- subscript_index indices 0 ;;
       index_b <- subscript_index indices 1 ;;
       distance <- subscript_key pair "distance" ;;
       ret (writerow output [index_a; index_b; distance])) out w
  = (Ok (out ++ text (map pair_row triples)), w).
Proof.
  intros H. revert out. induction H as [|pair abd pairs triples Hp H IH]; intros out.
  - simpl. unfold ret. now rewrite append_nil_r.
  - destruct Hp as (items & indices & -> & Hidx & Ha & Hb & Hd).
    cbn [for_each map]. unfold bind at 1. unfold bind at 1.
    unfold subscript_key at 1. rewrite Hidx. cbn [ret].
    unfold bind at 1. unfold subscript_index at 1. rewrite Ha. cbn [ret].
    unfold bind at 1. unfold subscript_index at 1. rewrite Hb. cbn [ret].
    unfold bind at 1. unfold subscript_key at 1. rewrite Hd. cbn [ret].
    rewrite IH. unfold writerow, Csv.writerow, text, pair_row. cbn [csv_text fold_right].
    fold (csv_text float_repr str_repr). now rewrite append_assoc.
Qed.

(** The loop over the items of the dictionary. *)
Lemma items_loop (items : list (string * value)) (out : string) (w : World) :
  for_each items
    (fun kv output =>
       ret (writerow output [VStr (fst kv); VStr (str float_repr str_repr (snd kv))])) out w
  = (Ok (out ++ text (map (fun kv => [VStr (fst kv); VStr (str float_repr str_repr (snd kv))])
                        items)), w).
Proof.
  revert out. induction items as [|kv items IH]; intros out.
  - simpl. unfold ret. now rewrite append_nil_r.
  - cbn [for_each map]. unfold bind at 1. cbn [ret].
    rewrite IH. unfold writerow, Csv.writerow, text. cbn [csv_text fold_right].
    fold (csv_text float_repr str_repr). now rewrite append_assoc.
Qed.

Lemma export_csv_matrix (results : list (string * value)) (rows : list (list value))
    (w : World) :
  dict_get results "distance_matrix" = Some (VList (map VList rows)) ->
  _export_csv float_repr str_repr results w
  = (Ok (text ((VStr "Point" :: map label (seq 0 (List.length rows)))
               :: map matrix_row (enumerate rows))), w).
Proof.
  intros Hm. unfold _export_csv. rewrite (dict_has_get _ _ _ Hm).
  unfold bind at 1. unfold subscript_key at 1. rewrite Hm. cbn [ret].
  unfold bind at 1. cbn [len ret]. rewrite length_map.
  unfold bind at 1. cbn [iter ret]. unfold enumerate. rewrite length_map.
  fold writerow. rewrite matrix_rows_loop.
  unfold writerow, Csv.writerow, text. reflexivity.
Qed.

Lemma export_csv_pairs (results : list (string * value)) (pairs : list value)
    (triples : list (value * value * value)) (w : World) :
  dict_get results "distance_matrix" = None ->
  dict_get results "calculation_pairs" = Some (VList pairs) ->
  Forall2 pair_fields pairs triples ->
  _export_csv float_repr str_repr results w
  = (Ok (text ([VStr "Point_A_Index"; VStr "Point_B_Index"; VStr "Distance"]
               :: map pair_row triples)), w).
Proof.
  intros Hm Hp Hf. unfold _export_csv.
  rewrite (dict_has_none _ _ Hm), (dict_has_get _ _ _ Hp).
  unfold bind at 1. unfold subscript_key at 1. rewrite Hp. cbn [ret].
  unfold bind at 1. cbn [iter ret].
  fold writerow. rewrite (pairs_loop pairs triples _ w Hf).
  unfold writerow, Csv.writerow, text. reflexivity.
Qed.

Lemma export_csv_generic (results : list (string * value)) (w : World) :
  dict_get results "distance_matrix" = None ->
  dict_get results "calculation_pairs" = None ->
  _export_csv float_repr str_repr results w
  = (Ok (text ([VStr "Key"; VStr "Value"]
               :: map (fun kv => [VStr (fst kv); VStr (str float_repr str_repr (snd kv))])
                    results)), w).
Proof.
  intros Hm Hp. unfold _export_csv.
  rewrite (dict_has_none _ _ Hm), (dict_has_none _ _ Hp).
  fold writerow. rewrite items_loop.
  unfold writerow, Csv.writerow, text. reflexivity.
Qed.

End CsvExport.

(** C5: the csv export picks its shape by precedence. With a distance matrix
    (a list of rows) it writes the header Point,P0,..,Pn-1 and one row per
    point, the label first; else with calculation pairs it writes a header
    and one (index A, index B, distance) row per pair; else it writes a
    Key,Value header and one row per item of the dictionary. Exporting
    {distance_matrix: [[0,1],[1,0]]} gives the lines Point,P0,P1 then P0,0,1
    then P1,1,0. *)
Theorem export_csv_shape (float_repr : float -> string) (str_repr : string -> string)
    (results : list (string * Py.value)) (w : World) :
  (forall rows,
     Py.dict_get results "distance_matrix" = Some (Py.VList (map Py.VList rows)) ->
     ResultsExporter._export_csv float_repr str_repr results w
     = (Ok (csv_text float_repr str_repr
              ((Py.VStr "Point" :: map ResultsExporter.label (seq 0 (List.length rows)))
               :: map matrix_row (ResultsExporter.enumerate rows))), w)) /\
  (forall pairs triples,
     Py.dict_get results "distance_matrix" = None ->
     Py.dict_get results "calculation_pairs" = Some (Py.VList pairs) ->
     Forall2 pair_fields pairs triples ->
     ResultsExporter._export_csv float_repr str_repr results w
     = (Ok (csv_text float_repr str_repr
              ([Py.VStr "Point_A_Index"; Py.VStr "Point_B_Index"; Py.VStr "Distance"]
               :: map pair_row triples)), w)) /\
  (Py.dict_get results "distance_matrix" = None ->
   Py.dict_get results "calculation_pairs" = None ->
   ResultsExporter._export_csv float_repr str_repr results w
   = (Ok (csv_text float_repr str_repr
            ([Py.VStr "Key"; Py.VStr "Value"]
             :: map (fun kv => [Py.VStr (fst kv);
                                Py.VStr (Py.str float_repr str_repr (snd kv))]) results)), w)) /\
  ResultsExporter._export_csv float_repr str_repr
    [("distance_matrix", Py.VList [Py.VList [Py.VInt 0; Py.VInt 1];
                                   Py.VList [Py.VInt 1; Py.VInt 0]])] w
  = (Ok ("Point,P0,P1" ++ Csv.lineterminator
         ++ "P0,0,1" ++ Csv.lineterminator
         ++ "P1,1,0" ++ Csv.lineterminator)%string, w).
Proof.
  split; [|split; [|split]].
  - intros rows. apply export_csv_matrix.
  - intros pairs triples. apply export_csv_pairs.
  - apply export_csv_generic.
  - rewrite (export_csv_matrix float_repr str_repr
               [("distance_matrix", Py.VList [Py.VList [Py.VInt 0; Py.VInt 1];
                                              Py.VList [Py.VInt 1; Py.VInt 0]])]
               [[Py.VInt 0; Py.VInt 1]; [Py.VInt 1; Py.VInt 0]] w eq_refl).
    reflexivity.
Qed.

(** The three shapes on small inputs; the first input holds both keys and
    its matrix wins. *)
Lemma export_csv_shape_witness :
  ResultsExporter._export_csv (fun _ => ""%string) (fun s => s) sample_matrix_and_pairs
    quiet_world
  = (Ok ("Point,P0,P1" ++ Csv.lineterminator
         ++ "P0,0,7" ++ Csv.lineterminator
         ++ "P1,7,0" ++ Csv.lineterminator)%string, quiet_world) /\
  ResultsExporter._export_csv (fun _ => ""%string) (fun s => s) sample_pairs quiet_world
  = (Ok ("Point_A_Index,Point_B_Index,Distance" ++ Csv.lineterminator
         ++ "0,1,5" ++ Csv.lineterminator)%string, quiet_world) /\
  ResultsExporter._export_csv (fun _ => ""%string) (fun s => s) sample_other quiet_world
  = (Ok ("Key,Value" ++ Csv.lineterminator
         ++ "calculation_type,euclidean" ++ Csv.lineterminator
         ++ "points," ++ String Csv.quotechar "[1, 2]" ++ String Csv.quotechar ""
         ++ Csv.lineterminator)%string, quiet_world).
Proof.
  split; [|split].
  - exact (proj1 (export_csv_shape (fun _ => ""%string) (fun s => s)
                    sample_matrix_and_pairs quiet_world)
             [[Py.VInt 0; Py.VInt 7]; [Py.VInt 7; Py.VInt 0]] eq_refl).
  - refine (proj1 (proj2 (export_csv_shape (fun _ => ""%string) (fun s => s)
                            sample_pairs quiet_world))
              _ [(Py.VInt 0, Py.VInt 1, Py.VInt 5)] eq_refl eq_refl _).
    constructor; [|constructor].
    eexists. eexists. repeat split; reflexivity.
  - exact (proj1 (proj2 (proj2 (export_csv_shape (fun _ => ""%string) (fun s => s)
                                  sample_other quiet_world)))
             eq_refl eq_refl).
Defined.

(** ** The json export *)

Section JsonExport.

Import Py Json ResultsExporter.
Local Open Scope string_scope.

(** Induction on values, through the lists and dictionaries they hold. *)
Lemma value_induction (P : value -> Prop) :
  P VNone ->
  (forall b, P (VBool b)) ->
  (forall z, P (VInt z)) ->
  (forall f, P (VFloat f)) ->
  (forall s, P (VStr s)) ->
  (forall xs, Forall P xs -> P (VList xs)) ->
  (forall xs, Forall P xs -> P (VTuple xs)) ->
  (forall items, Forall (fun kv => P (snd kv)) items -> P (VDict items)) ->
  (forall s r, P (VObject s r)) ->
  forall v, P v.
Proof.
  intros HNone HBool HInt HFloat HStr HList HTuple HDict HObject.
  fix IH 1. intros v. destruct v as [|b|z|f|s|xs|xs|items|s r].
  - exact HNone.
  - apply HBool.
  - apply HInt.
  - apply HFloat.
  - apply HStr.
  - apply HList. induction xs as [|x xs IHxs]; constructor; [apply IH | exact IHxs].
  - apply HTuple. induction xs as [|x xs IHxs]; constructor; [apply IH | exact IHxs].
  - apply HDict. induction items as [|kv items IHitems]; constructor;
      [apply IH | exact IHitems].
  - apply HObject.
Qed.

Lemma dict_set_fresh (d : list (string * value)) (k : string) (v : value) :
  existsb (String.eqb k) (map fst d) = false -> dict_set d k v = (d ++ [(k, v)])%list.
Proof.
  induction d as [|[k' v'] d IH]; intros H; [reflexivity|].
  cbn [map fst existsb] in H. apply orb_false_elim in H. destruct H as [Hk Hd].
  cbn [dict_set]. rewrite String.eqb_sym, Hk, (IH Hd). reflexivity.
Qed.

Lemma distinct_app_inv (ks : list string) (k : string) (ks' : list string) :
  distinct (ks ++ k :: ks')%list = true ->
  existsb (String.eqb k) ks = false /\ distinct ((ks ++ [k]) ++ ks')%list = true.
Proof.
  intros H. split.
  - induction ks as [|a ks IH]; [reflexivity|].
    cbn [app distinct] in H. apply andb_prop in H. destruct H as [Ha Hks].
    cbn [existsb]. rewrite (IH Hks), orb_false_r.
    apply negb_true_iff in Ha. rewrite existsb_app in Ha.
    apply orb_false_elim in Ha. destruct Ha as [_ Ha]. cbn [existsb] in Ha.
    apply orb_false_elim in Ha. destruct Ha as [Ha _]. now rewrite String.eqb_sym.
  - now rewrite <- app_assoc.
Qed.

(** Setting pairs with distinct new keys appends them. *)
Lemma fold_dict_set (pairs acc : list (string * value)) :
  distinct (map fst (acc ++ pairs)%list) = true ->
  fold_left (fun d kv => dict_set d (fst kv) (snd kv)) pairs acc = (acc ++ pairs)%list.
Proof.
  revert acc. induction pairs as [|[k v] pairs IH]; intros acc H.
  - simpl. now rewrite app_nil_r.
  - cbn [fold_left fst snd]. rewrite map_app in H. cbn [map fst] in H.
    apply distinct_app_inv in H. destruct H as [Hk H].
    rewrite (dict_set_fresh acc k v Hk).
    rewrite IH; [now rewrite <- app_assoc|].
    rewrite !map_app. exact H.
Qed.

Lemma dict_of_items_distinct (pairs : list (string * value)) :
  distinct (map fst pairs) = true -> dict_of_items pairs = pairs.
Proof. intros H. unfold dict_of_items. now rewrite fold_dict_set. Qed.

(** Reading back what was written gives the value itself, for the values
    json knows. *)
Lemma loads_dumps (v : value) : json_native v = true -> loads (dumps v) = v.
Proof.
  induction v as [|b|z|f|s|xs IH|xs IH|items IH|s r] using value_induction;
    cbn [json_native dumps loads]; intros H; try reflexivity; try discriminate H.
  - f_equal. rewrite map_map. rewrite <- (map_id xs) at 2.
    apply map_ext_in. intros x Hx. rewrite Forall_forall in IH.
    apply IH; [exact Hx|]. rewrite forallb_forall in H. now apply H.
  - apply andb_prop in H. destruct H as [Hkeys Hall].
    f_equal. rewrite map_map. cbn [fst snd].
    assert (E : map (fun kv : string * value => (fst kv, loads (dumps (snd kv)))) items = items).
    { rewrite <- (map_id items) at 2. apply map_ext_in. intros [k x] Hx.
      rewrite Forall_forall in IH. cbn [fst snd]. f_equal.
      apply (IH (k, x) Hx). rewrite forallb_forall in Hall. now apply (Hall (k, x)). }
    rewrite E. now apply dict_of_items_distinct.
Qed.

(** What comes back under 'results' for any value: the value as json reads
    it. *)
Lemma export_json_results (v : value) (w : World) :
  exists doc w',
    _export_json v w = (Ok doc, w') /\ results_of (loads doc) = Some (loads (dumps v)).
Proof.
  unfold _export_json, bind, _get_timestamp, ret.
  eexists. eexists. split; [reflexivity|]. reflexivity.
Qed.

(** C4 as stated does not hold: a result structure holding a tuple comes back
    holding a list. *)
Lemma export_json_tuple_counterexample :
  ~ (exists doc w',
       _export_json (VDict [("point", VTuple [VInt 1; VInt 2])]) quiet_world = (Ok doc, w') /\
       results_of (loads doc) = Some (VDict [("point", VTuple [VInt 1; VInt 2])])).
Proof.
  intros (doc & w' & Hrun & Hback). vm_compute in Hrun.
  injection Hrun as <- _. vm_compute in Hback. discriminate Hback.
Qed.

(** Nor does an object json cannot write come back: its [str] does. *)
Example export_json_object :
  exists doc w',
    _export_json (VDict [("when", VObject "2025-06-02" "datetime.date(2025, 6, 2)")])
      quiet_world = (Ok doc, w') /\
    results_of (loads doc) = Some (VDict [("when", VStr "2025-06-02")]).
Proof. eexists. eexists. split; reflexivity. Qed.

(** C4, amended: for every result structure built from None, booleans,
    integers, floats, strings, lists and dictionaries with distinct string
    keys, the json export succeeds and its parsed text holds the structure
    itself under 'results'. *)
Theorem export_json_round_trip (v : value) (w : World) :
  json_native v = true ->
  exists doc w',
    _export_json v w = (Ok doc, w') /\ results_of (loads doc) = Some v.
Proof.
  intros Hv. destruct (export_json_results v w) as (doc & w' & Hrun & Hback).
  exists doc, w'. split; [exact Hrun|]. now rewrite Hback, (loads_dumps v Hv).
Qed.

Lemma export_json_round_trip_witness :
  exists doc w',
    _export_json
      (VDict [("distance_matrix", VList [VList [VFloat 0; VFloat 5];
                                         VList [VFloat 5; VFloat 0]]);
              ("calculation_type", VStr "euclidean");
              ("metadata", VDict [("point_count", VInt 2); ("batch_id", VNone)])])
      quiet_world = (Ok doc, w') /\
    results_of (loads doc)
    = Some (VDict [("distance_matrix", VList [VList [VFloat 0; VFloat 5];
                                              VList [VFloat 5; VFloat 0]]);
                   ("calculation_type", VStr "euclidean");
                   ("metadata", VDict [("point_count", VInt 2); ("batch_id", VNone)])]).
Proof.
  apply (export_json_round_trip
           (VDict [("distance_matrix", VList [VList [VFloat 0; VFloat 5];
                                              VList [VFloat 5; VFloat 0]]);
                   ("calculation_type", VStr "euclidean");
                   ("metadata", VDict [("point_count", VInt 2); ("batch_id", VNone)])])
           quiet_world).
  reflexivity.
Defined.

End JsonExport.

(** * Further properties of the distance engine *)

(** ** More binary64 facts: finite values, signs *)

Module F64Sign.

Import F64Spec.
Local Open Scope float_scope.

Lemma is_infinity_spec x : is_infinity x = true <-> exists s, Prim2SF x = S754_infinity s.
Proof.
  unfold is_infinity. rewrite FloatAxioms.eqb_spec, abs_spec.
  change (Prim2SF infinity) with (S754_infinity false). unfold SFeqb. split.
  - destruct (Prim2SF x) as [s|s| |s m e]; simpl; try discriminate.
    intros _. now exists s.
  - intros [s ->]. reflexivity.
Qed.

(** A finite float is a zero or a signed mantissa with an exponent. *)
Lemma is_finite_spec x :
  is_finite x = true ->
  (exists s, Prim2SF x = S754_zero s) \/ (exists s m e, Prim2SF x = S754_finite s m e).
Proof.
  unfold is_finite. intros H. apply negb_true_iff, orb_false_elim in H.
  destruct H as [Hn Hi].
  destruct (Prim2SF x) as [s|s| |s m e] eqn:E.
  - left. now exists s.
  - assert (is_infinity x = true) by (apply is_infinity_spec; now exists s). congruence.
  - assert (is_nan x = true) by now apply F64.is_nan_spec. congruence.
  - right. now exists s, m, e.
Qed.

Lemma sub_diag x : is_finite x = true -> x - x = 0.
Proof.
  intros H. apply Prim2SF_inj. rewrite sub_spec, F64.Prim2SF_zero.
  destruct (is_finite_spec x H) as [[s ->] | (s & m & e & ->)].
  - destruct s; reflexivity.
  - unfold SF64sub, SFsub. cbv zeta. now rewrite Z.sub_diag.
Qed.

Lemma eqb_refl x : is_finite x = true -> (x =? x) = true.
Proof.
  intros H. unfold is_finite in H. apply negb_true_iff, orb_false_elim in H.
  destruct H as [Hn _]. unfold is_nan in Hn. now apply negb_false_iff in Hn.
Qed.








End F64Sign.

(** ** What the metrics return *)

Section MetricFacts.

Import Numpy.
Local Open Scope float_scope.

(** X1: for vectors of one length and a supported metric, [calculate] returns
    the same distance whichever of the two points comes first. *)
Theorem calculate_symmetric (a b : list float) (t : string) (w w0 : World) :
  In t supported_types ->
  List.length a = List.length b ->
  exists r r',
    calculate a b t w = (Ok r, tick w) /\
    calculate b a t w0 = (Ok r', tick w0) /\
    distance r = distance r'.
Proof.
  intros Ht Hlen. eexists. eexists. split; [|split].
  - now apply calculate_ok.
  - apply calculate_ok; [exact Ht | now symmetry].
  - cbn [distance]. apply metric_sym.
Qed.

Lemma calculate_symmetric_witness :
  exists r r',
    calculate [1; 5] [4; 1] "euclidean" quiet_world = (Ok r, tick quiet_world) /\
    calculate [4; 1] [1; 5] "euclidean" (tick quiet_world) = (Ok r', tick (tick quiet_world)) /\
    distance r = distance r'.
Proof.
  apply (calculate_symmetric [1; 5] [4; 1] "euclidean" quiet_world (tick quiet_world)).
  - simpl. tauto.
  - reflexivity.
Defined.

Lemma subtract_diag (a : ndarray) :
  Forall (fun x => is_finite x = true) a -> subtract a a = map (fun _ => 0) a.
Proof.
  unfold subtract. induction 1 as [|x a Hx Ha IH]; [reflexivity|].
  cbn [zip_with map]. now rewrite IH, (F64Sign.sub_diag x Hx).
Qed.

Lemma sum_zeros {A} (a : list A) : sum (map (fun _ => 0) a) = 0.
Proof.
  unfold sum. induction a as [|x a IH]; [reflexivity|].
  cbn [map fold_left]. exact IH.
Qed.

Lemma not_equal_diag (a : ndarray) :
  Forall (fun x => is_finite x = true) a -> filter id (not_equal a a) = [].
Proof.
  unfold not_equal. induction 1 as [|x a Hx Ha IH]; [reflexivity|].
  cbn [zip_with filter]. now rewrite (F64Sign.eqb_refl x Hx).
Qed.

(** X2: under the euclidean, manhattan and hamming metrics the distance of a
    point with finite coordinates to itself is exactly 0.0. *)
Theorem distance_to_itself (a : list float) (t : string) (w : World) :
  In t ["euclidean"; "manhattan"; "hamming"]%string ->
  Forall (fun x => is_finite x = true) a ->
  exists r, calculate a a t w = (Ok r, tick w) /\ distance r = 0.
Proof.
  intros Ht Ha. eexists. split.
  - apply calculate_ok; [|reflexivity].
    simpl in *. intuition.
  - cbn [distance]. unfold metric, array.
    destruct Ht as [<- | [<- | [<- | []]]]; cbn [dispatch String.eqb Ascii.eqb Bool.eqb].
    + unfold _euclidean_distance, linalg_norm, dot. rewrite (subtract_diag a Ha).
      cbn [py_float].
      replace (zip_with PrimFloat.mul (map (fun _ => 0) a) (map (fun _ => 0) a))
        with (map (fun _ : float => 0) a).
      * now rewrite sum_zeros.
      * clear Ha. induction a as [|x a IH]; [reflexivity|]. cbn [map zip_with]. now rewrite <- IH.
    + unfold _manhattan_distance, absolute. rewrite (subtract_diag a Ha), map_map.
      cbn [py_float]. apply (sum_zeros a).
    + unfold _hamming_distance, count_true. now rewrite (not_equal_diag a Ha).
Qed.

Lemma distance_to_itself_witness :
  exists r,
    calculate [3; -0.5; 0] [3; -0.5; 0] "manhattan" quiet_world = (Ok r, tick quiet_world) /\
    distance r = 0.
Proof.
  apply (distance_to_itself [3; -0.5; 0] "manhattan" quiet_world).
  - simpl. tauto.
  - repeat constructor.
Defined.

(** An infinite coordinate breaks it: the difference is NaN. *)
Example distance_to_itself_infinite :
  metric "euclidean" [infinity] [infinity] = nan /\
  metric "manhattan" [infinity] [infinity] = nan.
Proof. vm_compute. split; reflexivity. Qed.






Lemma count_true_bounds (l : list bool) :
  (List.length (filter id l) <= List.length l)%nat /\
  (List.length (filter id l) = 0%nat <-> Forall (fun c => c = false) l) /\
  (List.length (filter id l) = List.length l <-> Forall (fun c => c = true) l).
Proof.
  induction l as [|c l (Hle & H0 & Hn)]; cbn [filter List.length].
  - repeat split; auto.
  - destruct c; cbn [id List.length]; split; [lia| |lia|].
    + split.
      * split; [discriminate|]. intros H. inversion H; discriminate.
      * split.
        -- intros H. constructor; [reflexivity|]. apply Hn. lia.
        -- intros H. inversion H; subst. f_equal. now apply Hn.
    + split.
      * split.
        -- intros H. constructor; [reflexivity|]. now apply H0.
        -- intros H. inversion H; subst. now apply H0.
      * split; [lia|]. intros H. inversion H; discriminate.
Qed.

Lemma Forall_not_equal (P : bool -> Prop) (a b : ndarray) :
  List.length a = List.length b ->
  Forall P (not_equal a b) <-> Forall2 (fun x y => P (negb (x =? y))) a b.
Proof.
  unfold not_equal. revert b. induction a as [|x a IH]; intros [|y b] Hlen;
    try discriminate Hlen; cbn [zip_with].
  - split; constructor.
  - injection Hlen as Hlen. split; intros H; inversion H; subst; constructor;
      try assumption; now apply (IH b Hlen).
Qed.

(** X4: the hamming metric counts positions: for vectors of one length the
    count lies between 0 and the dimension, it is 0 exactly when the vectors
    compare equal at every position, and it is the dimension exactly when they
    differ at every position. *)
Theorem hamming_counts (a b : list float) :
  List.length a = List.length b ->
  exists k : nat,
    _hamming_distance a b = Int64 (Z.of_nat k) /\
    (k <= List.length a)%nat /\
    (k = 0%nat <-> Forall2 (fun x y => (x =? y) = true) a b) /\
    (k = List.length a <-> Forall2 (fun x y => (x =? y) = false) a b).
Proof.
  intros Hlen. exists (List.length (filter id (not_equal a b))).
  destruct (count_true_bounds (not_equal a b)) as (Hle & H0 & Hn).
  assert (Hl : List.length (not_equal a b) = List.length a).
  { unfold not_equal. clear -Hlen. revert b Hlen.
    induction a as [|x a IH]; intros [|y b] Hlen; try discriminate Hlen; [reflexivity|].
    cbn [zip_with List.length]. f_equal. apply IH. now injection Hlen. }
  rewrite Hl in Hle, Hn. split; [reflexivity|]. split; [exact Hle|]. split.
  - rewrite H0, (Forall_not_equal _ a b Hlen). split; intros H;
      (eapply Forall2_impl; [|exact H]); intros x y; cbv beta;
      destruct (x =? y); simpl; congruence.
  - rewrite Hn, (Forall_not_equal _ a b Hlen). split; intros H;
      (eapply Forall2_impl; [|exact H]); intros x y; cbv beta;
      destruct (x =? y); simpl; congruence.
Qed.

Lemma hamming_counts_witness :
  exists k : nat,
    _hamming_distance [1; 0; 1; 1] [1; 1; 1; 0] = Int64 (Z.of_nat k) /\
    (k <= 4)%nat /\
    (k = 0%nat <-> Forall2 (fun x y => (x =? y) = true) [1; 0; 1; 1] [1; 1; 1; 0]) /\
    (k = 4%nat <-> Forall2 (fun x y => (x =? y) = false) [1; 0; 1; 1] [1; 1; 1; 0]).
Proof.
  apply (hamming_counts [1; 0; 1; 1] [1; 1; 1; 0]). reflexivity.
Defined.

End MetricFacts.

(** ** More on the batch: entries, cost, failures *)

Section BatchFacts.

Local Open Scope nat_scope.

Lemma tick_ticks (k : nat) (w : World) : tick (ticks k w) = ticks (S k) w.
Proof. reflexivity. Qed.

Lemma ticks_ticks (a b : nat) (w : World) : ticks a (ticks b w) = ticks (a + b) w.
Proof. unfold ticks. cbn [clock uuid4 clock_reads uuid_draws]. f_equal; lia. Qed.

Lemma ticks_0 (w : World) : ticks 0 w = w.
Proof. destruct w. reflexivity. Qed.

Lemma skip_diagonal_fold (i : nat) (js : list nat) (w : World) :
  fold_left (fun w j => if i =? j then w else tick w) js w
  = ticks (List.length (filter (fun j => negb (i =? j)) js)) w.
Proof.
  revert w. induction js as [|j js IH]; intros w; cbn [fold_left filter].
  - symmetry. apply ticks_0.
  - destruct (i =? j); cbn [negb]; rewrite IH; [reflexivity|].
    cbn [List.length]. rewrite <- tick_ticks.
    generalize (List.length (filter (fun j0 => negb (i =? j0)) js)). intros k.
    unfold tick, ticks. cbn [clock uuid4 clock_reads uuid_draws]. f_equal; lia.
Qed.

Lemma filter_others (i : nat) (js : list nat) :
  ~ In i js -> filter (fun j => negb (i =? j)) js = js.
Proof.
  induction js as [|j js IH]; intros H; [reflexivity|]. cbn [filter].
  assert (E : (i =? j) = false) by (apply Nat.eqb_neq; intros ->; apply H; now left).
  rewrite E. cbn [negb]. f_equal. apply IH. intros Hin. apply H. now right.
Qed.

Lemma count_others (n i : nat) :
  i < n -> List.length (filter (fun j => negb (i =? j)) (seq 0 n)) = n - 1.
Proof.
  intros Hi. replace n with (i + (1 + (n - S i))) at 1 by lia.
  rewrite !seq_app, !filter_app, !length_app. cbn [seq filter Nat.add].
  rewrite Nat.eqb_refl. cbn [negb List.length].
  rewrite !filter_others, !length_seq by (rewrite in_seq; lia). lia.
Qed.

Lemma repeat_ticks (c : nat) (g : nat -> World -> World) (l : list nat) (w : World) :
  (forall i w, In i l -> g i w = ticks c w) ->
  fold_left (fun w i => g i w) l w = ticks (List.length l * c) w.
Proof.
  revert w. induction l as [|i l IH]; intros w H; cbn [fold_left List.length].
  - symmetry. apply ticks_0.
  - rewrite (H i w (or_introl eq_refl)), IH by (intros; apply H; now right).
    rewrite ticks_ticks. f_equal. lia.
Qed.

Variable points : list (list float).
Variable t : string.

Let n := List.length points.

(** The run of a valid batch, with the world it leaves. *)
Lemma batch_calculate_run (w : World) :
  In t supported_types ->
  same_dimensionality points ->
  2 <= n ->
  batch_calculate points t w
  = (Ok (mkBatchResult
           (map (fun i => map (batch_entry points t i) (seq 0 n)) (seq 0 n))
           t points
           (flat_map (fun i => row_pairs points t i (seq 0 n)) (seq 0 n))
           (mkBatchMetadata
              (clock w (n * (n - 1) + clock_reads w))
              (uuid4 w (n * (n - 1) + uuid_draws w)) n)),
     tick (ticks (n * (n - 1)) w)).
Proof.
  intros Ht Hdims Hn. unfold batch_calculate. fold n.
  assert (Hlt : (n <? 2) = false) by (apply Nat.ltb_ge; exact Hn).
  rewrite Hlt. unfold bind.
  rewrite (for_each_pure (seq 0 n) (outer_body points t)
             (fun i st => (fst st ++ [map (batch_entry points t i) (seq 0 n)],
                           snd st ++ row_pairs points t i (seq 0 n))%list)
             (fun i w => fold_left (fun w j => if i =? j then w else tick w) (seq 0 n) w)).
  - rewrite outer_fold. cbn [app fst snd].
    rewrite (repeat_ticks (n - 1)).
    + rewrite length_seq. reflexivity.
    + intros i w0 Hi. apply in_seq in Hi. rewrite skip_diagonal_fold, count_others by lia.
      reflexivity.
  - intros i st w' Hi. apply in_seq in Hi. apply outer_body_ok; [assumption..|lia].
Qed.

End BatchFacts.

Section BatchTheorems.

Local Open Scope nat_scope.

(** X5: a successful batch of N points returns an N x N matrix whose entry
    (i, j), for i different from j, is the distance [calculate] returns for
    points[i] and points[j] in that order. *)
Theorem batch_matrix_entries (points : list (list float)) (t : string) (w : World) :
  2 <= List.length points ->
  same_dimensionality points ->
  In t supported_types ->
  exists r w',
    batch_calculate points t w = (Ok r, w') /\
    List.length (distance_matrix r) = List.length points /\
    (forall row, In row (distance_matrix r) -> List.length row = List.length points) /\
    (forall i j p q w0,
       nth_error points i = Some p -> nth_error points j = Some q -> i <> j ->
       exists r0,
         calculate p q t w0 = (Ok r0, tick w0) /\
         matrix_entry (distance_matrix r) i j = Some (distance r0)).
Proof.
  intros Hn Hdims Ht. eexists. eexists. split.
  - now apply batch_calculate_run.
  - cbn [distance_matrix]. split; [now rewrite length_map, length_seq|]. split.
    + intros row Hrow. apply in_map_iff in Hrow. destruct Hrow as (i & <- & _).
      now rewrite length_map, length_seq.
    + intros i j p q w0 Hp Hq Hij.
      assert (Hi : i < List.length points) by (apply nth_error_Some; congruence).
      assert (Hj : j < List.length points) by (apply nth_error_Some; congruence).
      eexists. split.
      * apply calculate_ok; [exact Ht|].
        apply Hdims; eapply nth_error_In; eassumption.
      * rewrite matrix_entry_table by assumption. cbn [distance].
        unfold batch_entry. apply Nat.eqb_neq in Hij. rewrite Hij.
        now rewrite (nth_error_nth points i [] Hp), (nth_error_nth points j [] Hq).
Qed.

Lemma batch_matrix_entries_witness :
  exists r w',
    batch_calculate [[0; 0]; [3; 4]; [6; 8]]%float "euclidean" quiet_world = (Ok r, w') /\
    List.length (distance_matrix r) = 3 /\
    (forall row, In row (distance_matrix r) -> List.length row = 3) /\
    (forall i j p q w0,
       nth_error [[0; 0]; [3; 4]; [6; 8]]%float i = Some p ->
       nth_error [[0; 0]; [3; 4]; [6; 8]]%float j = Some q -> i <> j ->
       exists r0,
         calculate p q "euclidean" w0 = (Ok r0, tick w0) /\
         matrix_entry (distance_matrix r) i j = Some (distance r0)).
Proof.
  apply (batch_matrix_entries [[0; 0]; [3; 4]; [6; 8]]%float "euclidean" quiet_world).
  - simpl. lia.
  - intros p q [<- | [<- | [<- | []]]] [<- | [<- | [<- | []]]]; reflexivity.
  - simpl. tauto.
Defined.

(** X6: a successful batch of N points calls [calculate] once for every
    ordered pair of distinct indices, N(N-1) times (twice per unordered
    pair): with its own timestamp and id it leaves N(N-1)+1 more clock reads
    and as many more ids drawn. *)
Theorem batch_calculation_count (points : list (list float)) (t : string) (w : World) :
  2 <= List.length points ->
  same_dimensionality points ->
  In t supported_types ->
  exists r w',
    batch_calculate points t w = (Ok r, w') /\
    clock_reads w' = clock_reads w + List.length points * (List.length points - 1) + 1 /\
    uuid_draws w' = uuid_draws w + List.length points * (List.length points - 1) + 1.
Proof.
  intros Hn Hdims Ht. eexists. eexists. split.
  - now apply batch_calculate_run.
  - cbn [tick ticks clock_reads uuid_draws]. lia.
Qed.

Lemma batch_calculation_count_witness :
  exists r w',
    batch_calculate [[0; 0]; [3; 4]; [6; 8]]%float "hamming" quiet_world = (Ok r, w') /\
    clock_reads w' = 7 /\ uuid_draws w' = 7.
Proof.
  apply (batch_calculation_count [[0; 0]; [3; 4]; [6; 8]]%float "hamming" quiet_world).
  - simpl. lia.
  - intros p q [<- | [<- | [<- | []]]] [<- | [<- | [<- | []]]]; reflexivity.
  - simpl. tauto.
Defined.

(** A loop whose steps succeed or raise [e] either succeeds or raises [e]. *)
Lemma for_each_ok_or_raises {A S : Type} (xs : list A) (body : A -> S -> M S) (e : exn) :
  (forall x s w, In x xs ->
     (exists s' w', body x s w = (Ok s', w')) \/ (exists w', body x s w = (Raise e, w'))) ->
  forall s w,
    (exists s' w', for_each xs body s w = (Ok s', w')) \/
    (exists w', for_each xs body s w = (Raise e, w')).
Proof.
  induction xs as [|x xs IH]; intros H s w; cbn [for_each].
  - left. now exists s, w.
  - unfold bind. destruct (H x s w (or_introl eq_refl)) as [(s' & w' & E) | (w' & E)]; rewrite E.
    + apply IH. intros y s0 w0 Hy. apply H. now right.
    + right. now exists w'.
Qed.

(** If moreover one step always raises, so does the loop. *)
Lemma for_each_raises {A S : Type} (xs : list A) (body : A -> S -> M S) (e : exn) :
  (forall x s w, In x xs ->
     (exists s' w', body x s w = (Ok s', w')) \/ (exists w', body x s w = (Raise e, w'))) ->
  (exists x, In x xs /\ forall s w, exists w', body x s w = (Raise e, w')) ->
  forall s w, exists w', for_each xs body s w = (Raise e, w').
Proof.
  induction xs as [|x xs IH]; intros H (x0 & Hin & Hx0) s w; [destruct Hin|].
  cbn [for_each]. unfold bind.
  destruct (H x s w (or_introl eq_refl)) as [(s' & w' & E) | (w' & E)]; rewrite E.
  - apply IH; [intros y s0 w0 Hy; apply H; now right|].
    destruct Hin as [<- | Hin].
    + destruct (Hx0 s w) as (w1 & E1). congruence.
    + now exists x0.
  - now exists w'.
Qed.

End BatchTheorems.

Section BatchFailures.

Local Open Scope nat_scope.

Lemma calculate_supported (a b : list float) (t : string) (w : World) :
  In t supported_types ->
  (exists r, calculate a b t w = (Ok r, tick w)) \/
  (List.length a <> List.length b /\
   calculate a b t w = (Raise (ValueError "Points must have same dimensionality"), w)).
Proof.
  intros Ht. destruct (Nat.eq_dec (List.length a) (List.length b)) as [E | E].
  - left. eexists. now apply calculate_ok.
  - right. split; [exact E|]. unfold calculate.
    apply is_supported_In in Ht. rewrite Ht. cbn [negb].
    apply Nat.eqb_neq in E. rewrite E. reflexivity.
Qed.

Variable points : list (list float).
Variable t : string.
Hypothesis Ht : In t supported_types.

Let n := List.length points.
Let mismatch : exn := ValueError "Points must have same dimensionality".

Lemma inner_body_cases (i j : nat) (st : list float * list CalculationPair) (w : World) :
  i < n -> j < n ->
  (exists s' w', inner_body points t i j st w = (Ok s', w')) \/
  (exists w', inner_body points t i j st w = (Raise mismatch, w')).
Proof.
  intros Hi Hj. destruct st as [row pairs]. unfold inner_body.
  destruct (i =? j); [left; eexists; eexists; reflexivity|].
  unfold bind. rewrite (getitem_nth points i [] w Hi), (getitem_nth points j [] w Hj).
  destruct (calculate_supported (nth i points []) (nth j points []) t w Ht)
    as [(r & E) | (_ & E)]; rewrite E.
  - left. eexists. eexists. reflexivity.
  - right. now exists w.
Qed.

Lemma inner_body_mismatch (i j : nat) (p q : list float)
    (st : list float * list CalculationPair) (w : World) :
  nth_error points i = Some p -> nth_error points j = Some q ->
  List.length p <> List.length q ->
  exists w', inner_body points t i j st w = (Raise mismatch, w').
Proof.
  intros Hp Hq Hlen. destruct st as [row pairs]. unfold inner_body.
  assert (Hij : (i =? j) = false).
  { apply Nat.eqb_neq. intros ->. congruence. }
  rewrite Hij. unfold bind, getitem. rewrite Hp, Hq. cbn [ret].
  destruct (calculate_supported p q t w Ht) as [(r & E) | (_ & E)].
  - exfalso. unfold calculate in E. apply is_supported_In in Ht. rewrite Ht in E.
    cbn [negb] in E. apply Nat.eqb_neq in Hlen. rewrite Hlen in E. discriminate E.
  - rewrite E. now exists w.
Qed.

Lemma outer_body_cases (i : nat) (st : list (list float) * list CalculationPair) (w : World) :
  i < n ->
  (exists s' w', outer_body points t i st w = (Ok s', w')) \/
  (exists w', outer_body points t i st w = (Raise mismatch, w')).
Proof.
  intros Hi. destruct st as [m pairs]. unfold outer_body, bind. fold n.
  destruct (for_each_ok_or_raises (seq 0 n) (inner_body points t i) mismatch) with
    (s := (@nil float, pairs)) (w := w) as [(s' & w' & E) | (w' & E)].
  - intros j s0 w0 Hj. apply in_seq in Hj. apply inner_body_cases; [exact Hi | lia].
  - rewrite E. left. eexists. eexists. reflexivity.
  - rewrite E. right. now exists w'.
Qed.

Lemma outer_body_mismatch (i j : nat) (p q : list float)
    (st : list (list float) * list CalculationPair) (w : World) :
  nth_error points i = Some p -> nth_error points j = Some q ->
  List.length p <> List.length q ->
  exists w', outer_body points t i st w = (Raise mismatch, w').
Proof.
  intros Hp Hq Hlen. destruct st as [m pairs]. unfold outer_body, bind. fold n.
  assert (Hi : i < n) by (apply nth_error_Some; congruence).
  assert (Hj : j < n) by (apply nth_error_Some; congruence).
  destruct (for_each_raises (seq 0 n) (inner_body points t i) mismatch) with
    (s := (@nil float, pairs)) (w := w) as (w' & E).
  - intros j0 s0 w0 Hj0. apply in_seq in Hj0. apply inner_body_cases; [exact Hi | lia].
  - exists j. split; [apply in_seq; lia|].
    intros s0 w0. now apply (inner_body_mismatch i j p q).
  - rewrite E. now exists w'.
Qed.

Lemma batch_mismatch (w : World) :
  (exists p q, In p points /\ In q points /\ List.length p <> List.length q) ->
  exists w', batch_calculate points t w = (Raise mismatch, w').
Proof.
  intros (p & q & Hp & Hq & Hlen).
  apply In_nth_error in Hp, Hq. destruct Hp as (i & Hp). destruct Hq as (j & Hq).
  assert (Hi : i < n) by (apply nth_error_Some; congruence).
  assert (Hj : j < n) by (apply nth_error_Some; congruence).
  assert (Hij : i <> j) by (intros ->; congruence).
  unfold batch_calculate. fold n.
  assert (Hn : (n <? 2) = false) by (apply Nat.ltb_ge; lia).
  rewrite Hn. unfold bind.
  destruct (for_each_raises (seq 0 n) (outer_body points t) mismatch) with
    (s := (@nil (list float), @nil CalculationPair)) (w := w) as (w' & E).
  - intros i0 s0 w0 Hi0. apply in_seq in Hi0. apply outer_body_cases. lia.
  - exists i. split; [apply in_seq; lia|].
    intros s0 w0. now apply (outer_body_mismatch i j p q).
  - rewrite E. now exists w'.
Qed.

End BatchFailures.

(** X7: under a supported metric, a batch holding two points of different
    lengths raises the DimensionMismatch error and returns no result. *)
Theorem batch_rejects_mixed_dimensions (points : list (list float)) (t : string) (w : World) :
  In t supported_types ->
  (exists p q, In p points /\ In q points /\ List.length p <> List.length q) ->
  exists e w', batch_calculate points t w = (Raise e, w') /\ DimensionMismatch e.
Proof.
  intros Ht Hmixed. destruct (batch_mismatch points t Ht w Hmixed) as (w' & E).
  eexists. exists w'. split; [exact E | reflexivity].
Qed.

Lemma batch_rejects_mixed_dimensions_witness :
  exists e w',
    batch_calculate [[1; 2]; [1; 2]; [1; 2; 3]]%float "euclidean" quiet_world = (Raise e, w') /\
    DimensionMismatch e.
Proof.
  apply (batch_rejects_mixed_dimensions [[1; 2]; [1; 2]; [1; 2; 3]]%float "euclidean"
           quiet_world).
  - simpl. tauto.
  - exists [1; 2]%float, [1; 2; 3]%float. simpl. repeat split; auto.
Defined.

(** The failing batch above has already run one calculation when it meets the
    third point. *)
Example batch_mixed_run :
  batch_calculate [[1; 2]; [1; 2]; [1; 2; 3]]%float "euclidean" quiet_world
  = (Raise (ValueError "Points must have same dimensionality"), tick quiet_world).
Proof. vm_compute. reflexivity. Qed.

(** X8: under an unsupported metric a batch of at least two points raises the
    InvalidMetric error at its first calculation, before any clock read. *)
Theorem batch_rejects_unsupported_metric (points : list (list float)) (t : string)
    (w : World) :
  (2 <= List.length points)%nat ->
  ~ In t supported_types ->
  exists e, batch_calculate points t w = (Raise e, w) /\ InvalidMetric e.
Proof.
  intros Hn Ht. destruct points as [|p0 [|p1 rest]]; cbn [List.length] in Hn; try lia.
  apply is_supported_not_In in Ht.
  exists (ValueError ("Unsupported calculation type: " ++ t)). split; [|now exists t].
  unfold batch_calculate. cbn [List.length Nat.ltb Nat.leb seq for_each].
  unfold bind at 1. unfold bind at 1. unfold outer_body at 1.
  cbn [List.length seq for_each]. unfold bind at 1. unfold bind at 1.
  unfold inner_body at 1. cbn [Nat.eqb ret]. unfold bind at 1.
  unfold inner_body at 1. cbn [Nat.eqb]. unfold bind at 1. cbn [getitem nth_error ret].
  unfold bind at 1. cbn [ret]. unfold bind at 1. unfold calculate at 1.
  rewrite Ht. reflexivity.
Qed.

Lemma batch_rejects_unsupported_metric_witness :
  exists e,
    batch_calculate [[1; 2]; [3; 4]]%float "chebyshev" quiet_world = (Raise e, quiet_world) /\
    InvalidMetric e.
Proof.
  apply (batch_rejects_unsupported_metric [[1; 2]; [3; 4]]%float "chebyshev" quiet_world).
  - simpl. lia.
  - simpl. intros H. repeat (destruct H as [H | H]; [discriminate H |]). exact H.
Defined.

(** * Further properties of the export adapter *)

Section JsonNormalForm.

Import Py Json ResultsExporter.
Local Open Scope string_scope.

Lemma distinct_snoc (ks : list string) (k : string) :
  distinct ks = true -> existsb (String.eqb k) ks = false -> distinct (ks ++ [k])%list = true.
Proof.
  induction ks as [|a ks IH]; intros Hd Hk; [reflexivity|].
  cbn [distinct app] in *. apply andb_prop in Hd. destruct Hd as [Ha Hd].
  cbn [existsb] in Hk. apply orb_false_elim in Hk. destruct Hk as [Hka Hk].
  rewrite (IH Hd Hk), andb_true_r. apply negb_true_iff in Ha. apply negb_true_iff.
  rewrite existsb_app, Ha. cbn [existsb orb]. rewrite orb_false_r.
  now rewrite String.eqb_sym.
Qed.

Lemma dict_set_keys (d : list (string * value)) (k : string) (v : value) :
  map fst (dict_set d k v)
  = if existsb (String.eqb k) (map fst d) then map fst d else (map fst d ++ [k])%list.
Proof.
  induction d as [|[k' v'] d IH]; [reflexivity|].
  cbn [dict_set map fst existsb]. rewrite (String.eqb_sym k k').
  destruct (k' =? k); cbn [map fst orb]; [reflexivity|].
  rewrite IH. destruct (existsb (String.eqb k) (map fst d)); reflexivity.
Qed.

Lemma dict_set_distinct (d : list (string * value)) (k : string) (v : value) :
  distinct (map fst d) = true -> distinct (map fst (dict_set d k v)) = true.
Proof.
  intros Hd. rewrite dict_set_keys.
  destruct (existsb (String.eqb k) (map fst d)) eqn:E; [exact Hd|].
  now apply distinct_snoc.
Qed.

Lemma dict_set_all (P : value -> bool) (d : list (string * value)) (k : string) (v : value) :
  forallb (fun kv => P (snd kv)) d = true -> P v = true ->
  forallb (fun kv => P (snd kv)) (dict_set d k v) = true.
Proof.
  intros Hd Hv. induction d as [|[k' v'] d IH]; cbn [dict_set forallb snd] in *.
  - now rewrite Hv.
  - apply andb_prop in Hd. destruct Hd as [Hv' Hd].
    destruct (k' =? k); cbn [forallb snd].
    + now rewrite Hv, Hd.
    + now rewrite Hv', (IH Hd).
Qed.

Lemma dict_of_items_native (pairs : list (string * value)) :
  Forall (fun kv => json_native (snd kv) = true) pairs ->
  json_native (VDict (dict_of_items pairs)) = true.
Proof.
  intros H. unfold dict_of_items.
  assert (G : forall acc,
             json_native (VDict acc) = true ->
             json_native (VDict (fold_left (fun d kv => dict_set d (fst kv) (snd kv))
                                   pairs acc)) = true).
  { induction H as [|[k v] pairs Hv H IH]; intros acc Hacc; [exact Hacc|].
    cbn [fold_left fst snd]. apply IH. cbn [json_native] in *.
    apply andb_prop in Hacc. destruct Hacc as [Hk Hall].
    rewrite (dict_set_distinct acc k v Hk). cbn [andb].
    now apply dict_set_all. }
  now apply G.
Qed.

(** Whatever is exported, what is read back is made of values json knows. *)
Lemma loads_dumps_native (v : value) : json_native (loads (dumps v)) = true.
Proof.
  induction v as [|b|z|f|s|xs IH|xs IH|items IH|s r] using value_induction;
    cbn [dumps loads json_native]; try reflexivity.
  - rewrite map_map. apply forallb_forall. intros x Hx. apply in_map_iff in Hx.
    destruct Hx as (y & <- & Hy). rewrite Forall_forall in IH. now apply IH.
  - rewrite map_map. apply forallb_forall. intros x Hx. apply in_map_iff in Hx.
    destruct Hx as (y & <- & Hy). rewrite Forall_forall in IH. now apply IH.
  - change (json_native (VDict (dict_of_items
              (map (fun kj => (fst kj, loads (snd kj)))
                 (map (fun kv => (fst kv, dumps (snd kv))) items)))) = true).
    apply dict_of_items_native. rewrite map_map. apply Forall_forall.
    intros kv Hkv. apply in_map_iff in Hkv. destruct Hkv as (kv0 & <- & Hin).
    cbn [snd]. rewrite Forall_forall in IH. now apply (IH kv0).
Qed.

(** X9: for every result structure, what the json export gives back under
    'results' is built from values json knows, and exporting it again gives
    it back unchanged: one export brings a structure to a form that later
    round trips keep. *)
Theorem export_json_stabilises (v : value) (w w1 : World) :
  exists doc w' back,
    _export_json v w = (Ok doc, w') /\
    results_of (loads doc) = Some back /\
    json_native back = true /\
    exists doc1 w1',
      _export_json back w1 = (Ok doc1, w1') /\ results_of (loads doc1) = Some back.
Proof.
  destruct (export_json_results v w) as (doc & w' & Hrun & Hback).
  exists doc, w', (loads (dumps v)). split; [exact Hrun|]. split; [exact Hback|].
  split; [apply loads_dumps_native|].
  destruct (export_json_results (loads (dumps v)) w1) as (doc1 & w1' & Hrun1 & Hback1).
  exists doc1, w1'. split; [exact Hrun1|].
  rewrite Hback1. f_equal. apply loads_dumps, loads_dumps_native.
Qed.

Lemma point_value_native (p : list float) : json_native (point_value p) = true.
Proof.
  unfold point_value. cbn [json_native]. apply forallb_forall.
  intros x Hx. apply in_map_iff in Hx. now destruct Hx as (f & <- & _).
Qed.

Lemma batch_dict_native (r : BatchResult) : json_native (VDict (batch_dict r)) = true.
Proof.
  unfold batch_dict. cbn [json_native map fst snd forallb distinct existsb].
  cbn [String.eqb Ascii.eqb Bool.eqb negb andb orb].
  rewrite !andb_true_r.
  assert (Hpts : forall ps, forallb json_native (map point_value ps) = true).
  { intros ps. apply forallb_forall. intros x Hx. apply in_map_iff in Hx.
    destruct Hx as (q & <- & _). apply point_value_native. }
  rewrite !Hpts. cbn [andb].
  apply forallb_forall. intros x Hx. apply in_map_iff in Hx.
  destruct Hx as (q & <- & _). reflexivity.
Qed.

(** X10: every result a batch returns survives the json export: parsing the
    export gives the dictionary of the result back under 'results'. *)
Theorem batch_result_round_trip (points : list (list float)) (t : string) (w w1 : World) :
  (2 <= List.length points)%nat ->
  same_dimensionality points ->
  In t supported_types ->
  exists r w' doc w1',
    batch_calculate points t w = (Ok r, w') /\
    _export_json (VDict (batch_dict r)) w1 = (Ok doc, w1') /\
    results_of (loads doc) = Some (VDict (batch_dict r)).
Proof.
  intros Hn Hdims Ht.
  destruct (batch_calculate_ok points t Ht Hdims w Hn) as (r & w' & Hrun & _).
  destruct (export_json_results (VDict (batch_dict r)) w1) as (doc & w1' & Hexp & Hback).
  exists r, w', doc, w1'. split; [exact Hrun|]. split; [exact Hexp|].
  rewrite Hback. f_equal. apply loads_dumps, batch_dict_native.
Qed.

Lemma batch_result_round_trip_witness :
  exists r w' doc w1',
    batch_calculate [[0; 0]; [3; 4]]%float "euclidean" quiet_world = (Ok r, w') /\
    _export_json (VDict (batch_dict r)) quiet_world = (Ok doc, w1') /\
    results_of (loads doc) = Some (VDict (batch_dict r)).
Proof.
  apply (batch_result_round_trip [[0; 0]; [3; 4]]%float "euclidean" quiet_world quiet_world).
  - simpl. lia.
  - intros p q [<- | [<- | []]] [<- | [<- | []]]; reflexivity.
  - simpl. tauto.
Defined.

End JsonNormalForm.

Section CsvFacts.

Import Py ResultsExporter.
Local Open Scope string_scope.

Variable float_repr : float -> string.
Variable str_repr : string -> string.

Lemma for_each_app {A S : Type} (xs ys : list A) (body : A -> S -> M S) (s : S) (w : World) :
  for_each (xs ++ ys)%list body s w
  = match for_each xs body s w with
    | (Ok s', w') => for_each ys body s' w'
    | (Raise e, w') => (Raise e, w')
    end.
Proof.
  revert s w. induction xs as [|x xs IH]; intros s w; [reflexivity|].
  cbn [app for_each]. unfold bind. destruct (body x s w) as [[s' | e] w']; [apply IH | reflexivity].
Qed.

(** The loop over the rows stops at the first row that is not a list. *)
Lemma matrix_rows_loop_bad (pre : list (list value)) (bad : value) (post : list value)
    (start : nat) (out : string) (w : World) :
  not_a_list bad ->
  for_each (combine (seq start (List.length (map VList pre ++ bad :: post)%list))
              (map VList pre ++ bad :: post)%list)
    (fun ir output =>
       match snd ir with
       | VList row => ret (Csv.writerow float_repr str_repr output (label (fst ir) :: row))
       | _ => raise TypeError
       end) out w
  = (Raise TypeError, w).
Proof.
  intros Hbad. revert start out. induction pre as [|row pre IH]; intros start out.
  - cbn [map app List.length seq combine for_each]. unfold bind. cbn [snd].
    destruct bad; try reflexivity. destruct Hbad.
  - cbn [map app List.length seq combine for_each]. unfold bind at 1. cbn [snd fst ret].
    apply IH.
Qed.

Lemma batch_dict_matrix (r : BatchResult) :
  dict_get (batch_dict r) "distance_matrix"
  = Some (VList (map VList (map (map VFloat) (distance_matrix r)))).
Proof. cbn. now rewrite map_map. Qed.

End CsvFacts.

(** X11: the csv export of the result of a batch succeeds and is the matrix
    table, a header Point,P0,..,PN-1 and one labelled row per point holding
    the distances of that row; the calculation pairs of the result are not
    written. *)
Theorem batch_result_csv (float_repr : float -> string) (str_repr : string -> string)
    (points : list (list float)) (t : string) (w w1 : World) :
  (2 <= List.length points)%nat ->
  same_dimensionality points ->
  In t supported_types ->
  exists r w',
    batch_calculate points t w = (Ok r, w') /\
    ResultsExporter._export_csv float_repr str_repr (batch_dict r) w1
    = (Ok (csv_text float_repr str_repr
             ((Py.VStr "Point" :: map ResultsExporter.label (seq 0 (List.length points)))
              :: map matrix_row
                   (ResultsExporter.enumerate (map (map Py.VFloat) (distance_matrix r))))),
       w1).
Proof.
  intros Hn Hdims Ht.
  destruct (batch_calculate_ok points t Ht Hdims w Hn) as (r & w' & Hrun & Hm & _).
  exists r, w'. split; [exact Hrun|].
  rewrite (export_csv_matrix float_repr str_repr (batch_dict r)
             (map (map Py.VFloat) (distance_matrix r)) w1 (batch_dict_matrix r)).
  now rewrite length_map, Hm, length_map, length_seq.
Qed.

Lemma batch_result_csv_witness :
  exists r w',
    batch_calculate [[0; 0]; [3; 4]]%float "euclidean" quiet_world = (Ok r, w') /\
    ResultsExporter._export_csv (fun _ => "d"%string) (fun s => s) (batch_dict r) quiet_world
    = (Ok (csv_text (fun _ => "d"%string) (fun s => s)
             ((Py.VStr "Point" :: map ResultsExporter.label (seq 0 2))
              :: map matrix_row
                   (ResultsExporter.enumerate (map (map Py.VFloat) (distance_matrix r))))),
       quiet_world).
Proof.
  apply (batch_result_csv (fun _ => "d"%string) (fun s => s)
           [[0; 0]; [3; 4]]%float "euclidean" quiet_world quiet_world).
  - simpl. lia.
  - intros p q [<- | [<- | []]] [<- | [<- | []]]; reflexivity.
  - simpl. tauto.
Defined.

(** X12: once the key distance_matrix is present the csv export does not fall
    back to the pairs or to the generic shape: a matrix that has no length
    (None, a number, a boolean), or a matrix one of whose rows is not a list
    (a flat list of numbers), makes the export a TypeError. *)
Theorem export_csv_matrix_unusable (float_repr : float -> string)
    (str_repr : string -> string) (results : list (string * Py.value)) (m : Py.value)
    (w : World) :
  Py.dict_get results "distance_matrix" = Some m ->
  (unsized m ->
     ResultsExporter._export_csv float_repr str_repr results w = (Raise TypeError, w)) /\
  (forall pre bad post,
     m = Py.VList (map Py.VList pre ++ bad :: post) -> not_a_list bad ->
     ResultsExporter._export_csv float_repr str_repr results w = (Raise TypeError, w)).
Proof.
  intros Hm. split.
  - intros Hu. unfold ResultsExporter._export_csv. rewrite (dict_has_get _ _ _ Hm).
    unfold bind at 1. unfold Py.subscript_key at 1. rewrite Hm. cbn [ret].
    unfold bind at 1. destruct m; try destruct Hu; reflexivity.
  - intros pre bad post -> Hbad. unfold ResultsExporter._export_csv.
    rewrite (dict_has_get _ _ _ Hm).
    unfold bind at 1. unfold Py.subscript_key at 1. rewrite Hm. cbn [ret].
    unfold bind at 1. cbn [Py.len ret]. unfold bind at 1. cbn [Py.iter ret].
    unfold ResultsExporter.enumerate. now apply matrix_rows_loop_bad.
Qed.

Lemma export_csv_matrix_unusable_witness :
  (unsized Py.VNone ->
     ResultsExporter._export_csv (fun _ => ""%string) (fun s => s)
       [("calculation_pairs", Py.VList []); ("distance_matrix", Py.VNone)] quiet_world
     = (Raise TypeError, quiet_world)) /\
  (forall pre bad post,
     Py.VNone = Py.VList (map Py.VList pre ++ bad :: post) -> not_a_list bad ->
     ResultsExporter._export_csv (fun _ => ""%string) (fun s => s)
       [("calculation_pairs", Py.VList []); ("distance_matrix", Py.VNone)] quiet_world
     = (Raise TypeError, quiet_world)).
Proof.
  apply (export_csv_matrix_unusable (fun _ => ""%string) (fun s => s)
           [("calculation_pairs", Py.VList []); ("distance_matrix", Py.VNone)]
           Py.VNone quiet_world).
  reflexivity.
Defined.

(** A flat list of numbers given as the matrix. *)
Example export_csv_flat_matrix :
  ResultsExporter._export_csv (fun _ => ""%string) (fun s => s)
    [("distance_matrix", Py.VList [Py.VInt 0; Py.VInt 5])] quiet_world
  = (Raise TypeError, quiet_world).
Proof. reflexivity. Qed.

(** X13: a calculation pair that lacks its indices, or has them but lacks
    its distance, makes the csv export of the pairs a KeyError, also when
    every pair before it is complete: no partial table is returned. *)
Theorem export_csv_incomplete_pair (float_repr : float -> string)
    (str_repr : string -> string) (results : list (string * Py.value))
    (good : list Py.value) (triples : list (Py.value * Py.value * Py.value))
    (bad : list (string * Py.value)) (rest : list Py.value) (w : World) :
  Py.dict_get results "distance_matrix" = None ->
  Py.dict_get results "calculation_pairs" = Some (Py.VList (good ++ Py.VDict bad :: rest)) ->
  Forall2 pair_fields good triples ->
  (Py.dict_get bad "point_indices" = None \/
   exists indices a b,
     Py.dict_get bad "point_indices" = Some (Py.VList indices) /\
     nth_error indices 0 = Some a /\ nth_error indices 1 = Some b /\
     Py.dict_get bad "distance" = None) ->
  ResultsExporter._export_csv float_repr str_repr results w = (Raise KeyError, w).
Proof.
  intros Hm Hp Hgood Hbad. unfold ResultsExporter._export_csv.
  rewrite (dict_has_none _ _ Hm), (dict_has_get _ _ _ Hp).
  unfold bind at 1. unfold Py.subscript_key at 1. rewrite Hp. cbn [ret].
  unfold bind at 1. cbn [Py.iter ret].
  rewrite for_each_app.
  rewrite (pairs_loop float_repr str_repr good triples _ w Hgood).
  cbn [for_each]. unfold bind at 1. unfold bind at 1.
  unfold Py.subscript_key at 1.
  destruct Hbad as [Hi | (indices & a & b & Hi & Ha & Hb & Hd)]; rewrite Hi.
  - reflexivity.
  - cbn [ret]. unfold bind at 1. unfold Py.subscript_index at 1. rewrite Ha. cbn [ret].
    unfold bind at 1. unfold Py.subscript_index at 1. rewrite Hb. cbn [ret].
    unfold bind at 1. unfold Py.subscript_key at 1. rewrite Hd. reflexivity.
Qed.

Lemma export_csv_incomplete_pair_witness :
  ResultsExporter._export_csv (fun _ => ""%string) (fun s => s)
    [("calculation_pairs",
       Py.VList [Py.VDict [("point_indices", Py.VList [Py.VInt 0; Py.VInt 1]);
                           ("distance", Py.VInt 5)];
                 Py.VDict [("point_indices", Py.VList [Py.VInt 0; Py.VInt 2])]])]
    quiet_world
  = (Raise KeyError, quiet_world).
Proof.
  apply (export_csv_incomplete_pair (fun _ => ""%string) (fun s => s)
           [("calculation_pairs",
              Py.VList [Py.VDict [("point_indices", Py.VList [Py.VInt 0; Py.VInt 1]);
                                  ("distance", Py.VInt 5)];
                        Py.VDict [("point_indices", Py.VList [Py.VInt 0; Py.VInt 2])]])]
           [Py.VDict [("point_indices", Py.VList [Py.VInt 0; Py.VInt 1]);
                      ("distance", Py.VInt 5)]]
           [(Py.VInt 0, Py.VInt 1, Py.VInt 5)]
           [("point_indices", Py.VList [Py.VInt 0; Py.VInt 2])] [] quiet_world).
  - reflexivity.
  - reflexivity.
  - constructor; [|constructor]. eexists. eexists. repeat split; reflexivity.
  - right. exists [Py.VInt 0; Py.VInt 2], (Py.VInt 0), (Py.VInt 2). repeat split; reflexivity.
Defined.

(** * Further properties of the routes *)

Section CalculateRoute.

Import Py App.
Local Open Scope string_scope.



Lemma as_floats_length (xs : list value) (a : list float) :
  as_floats xs = Some a -> List.length a = List.length xs.
Proof.
  revert a. induction xs as [|x xs IH]; intros a H; cbn [as_floats] in H.
  - now injection H as <-.
  - destruct x; try discriminate H;
      destruct (as_floats xs) as [a'|]; try discriminate H;
      injection H as <-; cbn [List.length]; f_equal; now apply IH.
Qed.

Lemma truthy_list (xs : list value) : xs <> [] -> truthy (VList xs) = true.
Proof. destruct xs; [congruence | reflexivity]. Qed.

Lemma as_floats_floats (a : list float) : as_floats (map VFloat a) = Some a.
Proof. induction a as [|x a IH]; [reflexivity|]. cbn [map as_floats]. now rewrite IH. Qed.

(** X15: a request whose two points are non-empty lists of floats of one
    length, with a supported type or none (the default is euclidean), is
    answered 200 with the distance [calculate] computes for the type, the
    two points echoed and the dimensionality; one clock read and one id are
    used. *)
Theorem calculate_distance_success (items : list (string * value))
    (a b : list float) (t : string) (w : World) :
  dict_get items "point_a" = Some (VList (map VFloat a)) ->
  dict_get items "point_b" = Some (VList (map VFloat b)) ->
  a <> [] ->
  List.length a = List.length b ->
  get items "type" (VStr "euclidean") = VStr t ->
  In t DistanceCalculator.supported_types ->
  calculate_distance (VDict items) w
  = Some (mkResponse 200
            (VDict [("distance", VFloat (metric t a b));
                    ("calculation_type", VStr t);
                    ("point_a", VList (map VFloat a));
                    ("point_b", VList (map VFloat b));
                    ("dimensionality", VInt (Z.of_nat (List.length a)));
                    ("metadata", VDict [("timestamp", VStr (clock w (clock_reads w)));
                                        ("calculation_id", VStr (uuid4 w (uuid_draws w)))])]),
          tick w).
Proof.
  intros Ha Hb Hna Hlen Ht Hs. unfold calculate_distance.
  assert (Ga : get items "point_a" VNone = VList (map VFloat a))
    by (unfold get; now rewrite Ha).
  assert (Gb : get items "point_b" VNone = VList (map VFloat b))
    by (unfold get; now rewrite Hb).
  assert (Hnb : b <> []) by (destruct a, b; try discriminate Hlen; congruence).
  cbv zeta. rewrite Ga, Gb, Ht.
  rewrite !truthy_list by (destruct a, b; cbn [map]; congruence).
  cbn [negb orb as_point]. rewrite !as_floats_floats.
  rewrite calculate_ok by assumption. reflexivity.
Qed.

Lemma calculate_distance_success_witness :
  calculate_distance
    (VDict [("point_a", VList [VFloat 0; VFloat 0]); ("point_b", VList [VFloat 3; VFloat 4])])
    quiet_world
  = Some (mkResponse 200
            (VDict [("distance", VFloat (metric "euclidean" [0; 0]%float [3; 4]%float));
                    ("calculation_type", VStr "euclidean");
                    ("point_a", VList [VFloat 0; VFloat 0]);
                    ("point_b", VList [VFloat 3; VFloat 4]);
                    ("dimensionality", VInt 2);
                    ("metadata", VDict [("timestamp", VStr ""); ("calculation_id", VStr "")])]),
          tick quiet_world).
Proof.
  apply (calculate_distance_success
           [("point_a", VList [VFloat 0; VFloat 0]); ("point_b", VList [VFloat 3; VFloat 4])]
           [0; 0]%float [3; 4]%float "euclidean" quiet_world);
    try reflexivity; try discriminate.
  simpl. tauto.
Defined.

(** X16: with two non-empty lists of numbers, a request is answered 500 with
    'Calculation failed', and not 400, when the lists differ in length, when
    the type is a string outside the five metrics, or when the type is not a
    string; nothing is read from the clock. *)
Theorem calculate_distance_internal_failure (items : list (string * value))
    (pa pb : list value) (a b : list float) (w : World) :
  dict_get items "point_a" = Some (VList pa) ->
  dict_get items "point_b" = Some (VList pb) ->
  pa <> [] -> pb <> [] ->
  as_floats pa = Some a -> as_floats pb = Some b ->
  (List.length pa <> List.length pb /\
     exists t, get items "type" (VStr "euclidean") = VStr t /\
               In t DistanceCalculator.supported_types) \/
  (exists t, get items "type" (VStr "euclidean") = VStr t /\
             ~ In t DistanceCalculator.supported_types) \/
  (forall t, get items "type" (VStr "euclidean") <> VStr t) ->
  calculate_distance (VDict items) w
  = Some (mkResponse 500 (VDict [("error", VStr "Calculation failed")]), w).
Proof.
  intros Ha Hb Hna Hnb Hfa Hfb Hcase. unfold calculate_distance.
  assert (Ga : get items "point_a" VNone = VList pa) by (unfold get; now rewrite Ha).
  assert (Gb : get items "point_b" VNone = VList pb) by (unfold get; now rewrite Hb).
  cbv zeta. rewrite Ga, Gb, (truthy_list pa Hna), (truthy_list pb Hnb).
  cbn [negb orb as_point]. rewrite Hfa, Hfb.
  destruct Hcase as [(Hlen & t & Ht & Hs) | [(t & Ht & Hs) | Hns]].
  - rewrite Ht. unfold DistanceCalculator.calculate.
    apply is_supported_In in Hs. rewrite Hs. cbn [negb].
    assert (E : (List.length a =? List.length b)%nat = false).
    { apply Nat.eqb_neq.
      now rewrite (as_floats_length pa a Hfa), (as_floats_length pb b Hfb). }
    rewrite E. reflexivity.
  - rewrite Ht. unfold DistanceCalculator.calculate.
    apply is_supported_not_In in Hs. rewrite Hs. reflexivity.
  - destruct (get items "type" (VStr "euclidean")) as [|?|?|?|t|?|?|?|? ?];
      try reflexivity. exfalso. now apply (Hns t).
Qed.

Lemma calculate_distance_internal_failure_witness :
  calculate_distance
    (VDict [("point_a", VList [VInt 1; VInt 2]);
            ("point_b", VList [VInt 1; VInt 2; VInt 3])]) quiet_world
  = Some (mkResponse 500 (VDict [("error", VStr "Calculation failed")]), quiet_world).
Proof.
  apply (calculate_distance_internal_failure
           [("point_a", VList [VInt 1; VInt 2]); ("point_b", VList [VInt 1; VInt 2; VInt 3])]
           [VInt 1; VInt 2] [VInt 1; VInt 2; VInt 3]
           (map float_of_Z [1; 2]%Z) (map float_of_Z [1; 2; 3]%Z) quiet_world);
    try reflexivity; try discriminate.
  left. split; [simpl; lia|]. exists "euclidean". split; [reflexivity | simpl; tauto].
Defined.

End CalculateRoute.

Section ExportRoute.

Import Py ExportService Routes.
Local Open Scope string_scope.

Variable float_repr : float -> string.
Variable str_repr : string -> string.

Lemma export_json_run (v : value) (w : World) :
  export float_repr str_repr v "json" w
  = Some (Ok (mkExportResult "json"
                (JsonText (Json.dumps
                   (VDict [("export_info", VDict [("format", VStr "json");
                                                  ("timestamp", VStr (clock w (clock_reads w)));
                                                  ("version", VStr "1.0")]);
                           ("results", v)])))
                ("distance_analysis_" ++ clock w (S (clock_reads w)) ++ ".json")
                (mkExportMetadata (clock w (S (S (clock_reads w)))) (uuid4 w (uuid_draws w))
                   (String.length (str float_repr str_repr v)))),
          mkWorld (clock w) (uuid4 w) (S (S (S (clock_reads w)))) (S (uuid_draws w))).
Proof. reflexivity. Qed.

Lemma export_csv_raises (v : value) (w : World) :
  not_a_dict v ->
  exists e, export float_repr str_repr v "csv" w = Some (Raise e, w).
Proof.
  intros Hv. unfold export. cbn [supported_formats existsb String.eqb Ascii.eqb Bool.eqb
                                   orb negb writer].
  destruct v as [|b|z|f|s|xs|xs|items|s r]; try destruct Hv; cbn [export_csv_value].
  - eexists. reflexivity.
  - eexists. reflexivity.
  - eexists. reflexivity.
  - eexists. reflexivity.
  - destruct (str_has s "distance_matrix"); [eexists; reflexivity|].
    destruct (str_has s "calculation_pairs"); eexists; reflexivity.
  - destruct (list_has xs "distance_matrix"); [eexists; reflexivity|].
    destruct (list_has xs "calculation_pairs"); eexists; reflexivity.
  - destruct (list_has xs "distance_matrix"); [eexists; reflexivity|].
    destruct (list_has xs "calculation_pairs"); eexists; reflexivity.
Qed.

End ExportRoute.

(** X17: the export route with no format exports as json, and with no
    results exports the empty dictionary: for results json knows, the answer
    is 200, names the format json, carries a text that parses back to the
    results under 'results', and a file name distance_analysis_<clock>.json
    taken from the second of three clock reads. *)
Theorem export_results_default (float_repr : float -> string) (str_repr : string -> string)
    (items : list (string * Py.value)) (v : Py.value) (w : World) :
  Py.dict_get items "format" = None ->
  App.get items "results" (Py.VDict []) = v ->
  json_native v = true ->
  exists r doc w',
    Routes.export_results float_repr str_repr (Py.VDict items) w
    = Some (Routes.mkExportResponse 200 (inl r), w') /\
    ExportService.format r = "json"%string /\
    ExportService.data r = ExportService.JsonText doc /\
    results_of (Json.loads doc) = Some v /\
    ExportService.filename r
    = ("distance_analysis_" ++ clock w (S (clock_reads w)) ++ ".json")%string /\
    clock_reads w' = (clock_reads w + 3)%nat.
Proof.
  intros Hf Hr Hv. unfold Routes.export_results. unfold App.get at 1. rewrite Hf, Hr.
  rewrite export_json_run. eexists. eexists. eexists. split; [reflexivity|].
  cbn [ExportService.format ExportService.data ExportService.filename clock_reads].
  repeat split; try reflexivity.
  - change (results_of (Json.loads (Json.dumps
              (Py.VDict [("export_info",
                           Py.VDict [("format", Py.VStr "json");
                                     ("timestamp", Py.VStr (clock w (clock_reads w)));
                                     ("version", Py.VStr "1.0")]);
                         ("results", v)])))
            = Some v).
    transitivity (Some (Json.loads (Json.dumps v))); [reflexivity|].
    f_equal. now apply loads_dumps.
  - lia.
Qed.

Lemma export_results_default_witness :
  exists r doc w',
    Routes.export_results (fun _ => ""%string) (fun s => s) (Py.VDict []) quiet_world
    = Some (Routes.mkExportResponse 200 (inl r), w') /\
    ExportService.format r = "json"%string /\
    ExportService.data r = ExportService.JsonText doc /\
    results_of (Json.loads doc) = Some (Py.VDict []) /\
    ExportService.filename r = "distance_analysis_.json"%string /\
    clock_reads w' = 3%nat.
Proof.
  apply (export_results_default (fun _ => ""%string) (fun s => s) [] (Py.VDict [])
           quiet_world); reflexivity.
Defined.

(** X18: the export route answers 500 with 'Export failed', reading no
    clock, when the format is not a string, when it is a string outside the
    six formats, and when the format is csv while the results are not a
    dictionary (a list, a string, a number, a boolean, null). *)
Theorem export_results_failure (float_repr : float -> string) (str_repr : string -> string)
    (items : list (string * Py.value)) (w : World) :
  (forall name, App.get items "format" (Py.VStr "json") <> Py.VStr name) \/
  (exists name, App.get items "format" (Py.VStr "json") = Py.VStr name /\
                ~ In name ExportService.supported_formats) \/
  (App.get items "format" (Py.VStr "json") = Py.VStr "csv" /\
   not_a_dict (App.get items "results" (Py.VDict []))) ->
  Routes.export_results float_repr str_repr (Py.VDict items) w
  = Some (Routes.mkExportResponse 500 (inr "Export failed"%string), w).
Proof.
  intros Hcase. unfold Routes.export_results. cbv zeta.
  destruct Hcase as [Hns | [(name & Hf & Hout) | (Hf & Hv)]].
  - destruct (App.get items "format" (Py.VStr "json")) as [|?|?|?|name|?|?|?|? ?];
      try reflexivity. exfalso. now apply (Hns name).
  - rewrite Hf. unfold ExportService.export.
    assert (E : existsb (String.eqb name) ExportService.supported_formats = false).
    { destruct (existsb (String.eqb name) ExportService.supported_formats) eqn:E;
        [|reflexivity].
      exfalso. apply Hout. apply existsb_exists in E. destruct E as (x & Hin & Hx).
      apply String.eqb_eq in Hx. now subst. }
    rewrite E. reflexivity.
  - rewrite Hf.
    destruct (export_csv_raises float_repr str_repr _ w Hv) as (e & E). now rewrite E.
Qed.

Lemma export_results_failure_witness :
  Routes.export_results (fun _ => ""%string) (fun s => s)
    (Py.VDict [("format", Py.VStr "csv"); ("results", Py.VList [Py.VInt 1; Py.VInt 2])])
    quiet_world
  = Some (Routes.mkExportResponse 500 (inr "Export failed"%string), quiet_world).
Proof.
  apply (export_results_failure (fun _ => ""%string) (fun s => s)
           [("format", Py.VStr "csv"); ("results", Py.VList [Py.VInt 1; Py.VInt 2])]
           quiet_world).
  right. right. split; [reflexivity | exact I].
Defined.

Section VisualizationRoute.

Import Py Routes.
Local Open Scope string_scope.

Variable float_repr : float -> string.
Variable str_repr : string -> string.

Let failed (w : World) : option (App.response * World) :=
  Some (App.mkResponse 500 (VDict [("error", VStr "Visualization generation failed")]), w).

Lemma config_chart_type (items : list (string * value)) :
  App.get [("points", App.get items "points" (VList []));
           ("distances", App.get items "distances" (VList []));
           ("chart_type", App.get items "chart_type" (VStr "scatter"));
           ("style", App.get items "style" (VStr "default"))] "chart_type" (VStr "scatter")
  = chart_type_of items.
Proof. reflexivity. Qed.

Lemma visualization_heatmap (items : list (string * value)) (w : World) :
  chart_type_of items = VStr "heatmap" ->
  generate_visualization float_repr str_repr (VDict items) w = failed w.
Proof.
  intros Hc. unfold generate_visualization, VisualizationGenerator.generate. cbv zeta.
  rewrite config_chart_type, Hc. reflexivity.
Qed.

Lemma visualization_unsupported (items : list (string * value)) (w : World) :
  (forall name, In name VisualizationGenerator.supported_chart_types ->
                chart_type_of items <> VStr name) ->
  generate_visualization float_repr str_repr (VDict items) w = failed w.
Proof.
  intros Hc. unfold generate_visualization, VisualizationGenerator.generate. cbv zeta.
  rewrite config_chart_type.
  destruct (chart_type_of items) as [|?|?|?|name|?|?|?|? ?]; try reflexivity.
  destruct (existsb (String.eqb name) VisualizationGenerator.supported_chart_types) eqn:E;
    [|reflexivity].
  exfalso. apply existsb_exists in E. destruct E as (x & Hin & Hx).
  apply String.eqb_eq in Hx. subst x. now apply (Hc name).
Qed.

Lemma visualization_missing (items : list (string * value)) (name key : string)
    (w : World) :
  chart_type_of items = VStr name ->
  In (name, key) [("scatter", "points"); ("network", "points");
                  ("histogram", "distances"); ("line", "distances")] ->
  truthy (App.get items key (VList [])) = false ->
  generate_visualization float_repr str_repr (VDict items) w = failed w.
Proof.
  intros Hc Hin Hk. unfold generate_visualization, VisualizationGenerator.generate. cbv zeta.
  rewrite config_chart_type, Hc.
  destruct Hin as [E | [E | [E | [E | []]]]]; injection E as <- <-;
    cbn [VisualizationGenerator.supported_chart_types existsb String.eqb Ascii.eqb
         Bool.eqb orb negb VisualizationGenerator.required_data];
    unfold App.get at 1; cbn [dict_get String.eqb Ascii.eqb Bool.eqb];
    rewrite Hk; reflexivity.
Qed.

End VisualizationRoute.

(** X19: the visualization route never renders a heatmap: the configuration
    it hands to the generator holds the points, the distances, the chart type
    and the style but no distance matrix, so every request for the chart type
    heatmap is answered 500, whatever else the body holds. *)
Theorem heatmap_always_fails (float_repr : float -> string) (str_repr : string -> string)
    (items : list (string * Py.value)) (w : World) :
  chart_type_of items = Py.VStr "heatmap" ->
  Routes.generate_visualization float_repr str_repr (Py.VDict items) w
  = Some (App.mkResponse 500
            (Py.VDict [("error", Py.VStr "Visualization generation failed")]), w).
Proof. apply visualization_heatmap. Qed.

Lemma heatmap_always_fails_witness :
  Routes.generate_visualization (fun _ => ""%string) (fun s => s)
    (Py.VDict [("chart_type", Py.VStr "heatmap");
               ("distance_matrix", Py.VList [Py.VList [Py.VInt 0; Py.VInt 1];
                                             Py.VList [Py.VInt 1; Py.VInt 0]]);
               ("distances", Py.VList [Py.VList [Py.VInt 0; Py.VInt 1];
                                       Py.VList [Py.VInt 1; Py.VInt 0]])])
    quiet_world
  = Some (App.mkResponse 500
            (Py.VDict [("error", Py.VStr "Visualization generation failed")]), quiet_world).
Proof.
  apply (heatmap_always_fails (fun _ => ""%string) (fun s => s)
           [("chart_type", Py.VStr "heatmap");
            ("distance_matrix", Py.VList [Py.VList [Py.VInt 0; Py.VInt 1];
                                          Py.VList [Py.VInt 1; Py.VInt 0]]);
            ("distances", Py.VList [Py.VList [Py.VInt 0; Py.VInt 1];
                                    Py.VList [Py.VInt 1; Py.VInt 0]])]
           quiet_world).
  reflexivity.
Defined.

(** X20: the visualization route answers 500 before anything is drawn when
    the chart type is not one of the five kinds (or is not a string), when a
    scatter or network chart is asked without points, and when a histogram
    or line chart is asked without distances; an absent chart type counts as
    scatter, and points or distances that are absent, null or empty count as
    missing. *)
Theorem generate_visualization_needs_data (float_repr : float -> string)
    (str_repr : string -> string) (items : list (string * Py.value)) (w : World) :
  (forall name, In name VisualizationGenerator.supported_chart_types ->
                chart_type_of items <> Py.VStr name) \/
  (exists name key,
     chart_type_of items = Py.VStr name /\
     In (name, key) [("scatter", "points"); ("network", "points");
                     ("histogram", "distances"); ("line", "distances")]%string /\
     Py.truthy (App.get items key (Py.VList [])) = false) ->
  Routes.generate_visualization float_repr str_repr (Py.VDict items) w
  = Some (App.mkResponse 500
            (Py.VDict [("error", Py.VStr "Visualization generation failed")]), w).
Proof.
  intros [Hc | (name & key & Hc & Hin & Hk)].
  - now apply visualization_unsupported.
  - now apply (visualization_missing float_repr str_repr items name key).
Qed.

Lemma generate_visualization_needs_data_witness :
  Routes.generate_visualization (fun _ => ""%string) (fun s => s)
    (Py.VDict [("distances", Py.VList [Py.VInt 1; Py.VInt 2])]) quiet_world
  = Some (App.mkResponse 500
            (Py.VDict [("error", Py.VStr "Visualization generation failed")]), quiet_world).
Proof.
  apply (generate_visualization_needs_data (fun _ => ""%string) (fun s => s)
           [("distances", Py.VList [Py.VInt 1; Py.VInt 2])] quiet_world).
  right. exists "scatter"%string, "points"%string.
  split; [reflexivity|]. split; [simpl; tauto | reflexivity].
Defined.

(** * Further properties: order of the pairs, zero vectors *)

Section MoreBatch.

Local Open Scope nat_scope.

Lemma row_pairs_seq (points : list (list float)) (t : string) (n i : nat) :
  i < n ->
  row_pairs points t i (seq 0 n)
  = map (fun j => mkPair (i, j) (batch_entry points t i j)) (seq (S i) (n - S i)).
Proof.
  intros Hi. replace n with (S i + (n - S i)) at 1 by lia.
  rewrite seq_app, row_pairs_app.
  rewrite row_pairs_below by (intros j Hj; apply in_seq in Hj; lia).
  rewrite row_pairs_above by (intros j Hj; apply in_seq in Hj; lia).
  reflexivity.
Qed.

(** X21: the calculation pairs of a batch come in row-major order: all pairs
    of index 0 with the later indices in increasing order, then those of
    index 1, and so on up to (N-2, N-1). *)
Theorem batch_pairs_order (points : list (list float)) (t : string) (w : World) :
  2 <= List.length points ->
  same_dimensionality points ->
  In t supported_types ->
  exists r w',
    batch_calculate points t w = (Ok r, w') /\
    map point_indices (calculation_pairs r)
    = flat_map (fun i => map (fun j => (i, j))
                           (seq (S i) (List.length points - S i)))
        (seq 0 (List.length points)).
Proof.
  intros Hn Hdims Ht.
  destruct (batch_calculate_ok points t Ht Hdims w Hn) as (r & w' & Hrun & _ & Hp).
  exists r, w'. split; [exact Hrun|]. rewrite Hp.
  set (n := List.length points).
  assert (G : forall l, (forall i, In i l -> i < n) ->
            map point_indices (flat_map (fun i => row_pairs points t i (seq 0 n)) l)
            = flat_map (fun i => map (fun j => (i, j)) (seq (S i) (n - S i))) l).
  { induction l as [|i l IH]; intros Hl; [reflexivity|].
    cbn [flat_map]. rewrite map_app, IH by (intros; apply Hl; now right).
    rewrite row_pairs_seq by (apply Hl; now left).
    now rewrite map_map. }
  apply G. intros i Hi. apply in_seq in Hi. lia.
Qed.

Lemma batch_pairs_order_witness :
  exists r w',
    batch_calculate [[0; 0]; [3; 4]; [6; 8]; [1; 1]]%float "manhattan" quiet_world
    = (Ok r, w') /\
    map point_indices (calculation_pairs r)
    = [(0, 1); (0, 2); (0, 3); (1, 2); (1, 3); (2, 3)].
Proof.
  apply (batch_pairs_order [[0; 0]; [3; 4]; [6; 8]; [1; 1]]%float "manhattan" quiet_world).
  - simpl. lia.
  - intros p q [<- | [<- | [<- | [<- | []]]]] [<- | [<- | [<- | [<- | []]]]]; reflexivity.
  - simpl. tauto.
Defined.

End MoreBatch.

Section ZeroVectors.

Import Numpy.
Local Open Scope float_scope.

Lemma fmax_zero (x y : float) :
  (x =? 0) = true -> (y =? 0) = true -> F64Spec.SFis_zero (Prim2SF (fmax x y)).
Proof.
  intros Hx Hy. unfold fmax.
  destruct ((y <=? x) || is_nan x); now apply F64.eqb_zero_spec.
Qed.

Lemma maximum_zero (a b : ndarray) :
  Forall (fun x => (x =? 0) = true) a ->
  Forall (fun x => (x =? 0) = true) b ->
  Forall (fun x => F64Spec.SFis_zero (Prim2SF x)) (maximum a b).
Proof.
  unfold maximum. intros Ha. revert b.
  induction Ha as [|x a Hx Ha IH]; intros b Hb; [constructor|].
  destruct Hb as [|y b Hy Hb]; [constructor|]. cbn [zip_with]. constructor.
  - now apply fmax_zero.
  - now apply IH.
Qed.

(** X22: the jaccard distance of two vectors of zeros (of any signs) of one
    length is exactly 0.0: the guard on the sum of the maxima keeps the
    quotient 0/0 from being taken. *)
Theorem jaccard_zero_vectors (a b : list float) (w : World) :
  List.length a = List.length b ->
  Forall (fun x => (x =? 0) = true) a ->
  Forall (fun x => (x =? 0) = true) b ->
  exists r, calculate a b "jaccard" w = (Ok r, tick w) /\ distance r = 0.
Proof.
  intros Hlen Ha Hb. eexists. split.
  - apply calculate_ok; [simpl; tauto | exact Hlen].
  - cbn [distance]. unfold metric. cbn [dispatch String.eqb Ascii.eqb Bool.eqb].
    unfold array, _jaccard_distance.
    assert (E : (sum (maximum a b) =? 0) = true).
    { apply F64.eqb_zero_spec. unfold sum. apply F64.fold_add_zero.
      - now apply maximum_zero.
      - now exists false. }
    now rewrite E.
Qed.

Lemma jaccard_zero_vectors_witness :
  exists r,
    calculate [0; -0; 0] [-0; 0; 0] "jaccard" quiet_world = (Ok r, tick quiet_world) /\
    distance r = 0.
Proof.
  apply (jaccard_zero_vectors [0; -0; 0] [-0; 0; 0] quiet_world).
  - reflexivity.
  - repeat constructor.
  - repeat constructor.
Defined.

End ZeroVectors.
